(** * DomoHub plugin runtime: a shallow embedding of [src/plugins]

    The development follows the Python sources
    [src/plugins/base.py], [src/plugins/manager.py] and the two example
    integrations under [src/plugins/examples/].  Python objects are
    records, dictionaries are finite maps, and the [async] methods are
    functions in a small state-and-exception monad: a method either
    returns a value or raises, and in both cases the mutations it made to
    [self] persist. *)

From Stdlib Require Import ZArith QArith.
From stdpp Require Import gmap strings list fin_maps.

Open Scope Z_scope.
Open Scope string_scope.
Open Scope list_scope.
Open Scope nat_scope.

(** ** Python values, exceptions and outcomes *)

Module Py.

(** The part of [typing.Any] that the sources put into configuration
    and property dictionaries: [None], booleans, integers, float
    literals (as the rational they denote) and strings. *)
Inductive value : Type :=
| VNone
| VBool (b : bool)
| VInt (z : Z)
| VFloat (q : Q)
| VStr (s : string).

(** Truth value testing, as used by [not x] and [x or y]. *)
Definition truthy (v : value) : bool :=
  match v with
  | VNone => false
  | VBool b => b
  | VInt z => negb (Z.eqb z 0)
  | VFloat q => negb (Qeq_bool q 0)
  | VStr s => negb (String.eqb s "")
  end.

(** [d.get(key, default)] *)
Definition dict_get (d : gmap string value) (key : string) (default : value) : value :=
  match d !! key with
  | Some v => v
  | None => default
  end.

(** An instance of (a subclass of) [Exception]; [str(e)] is [exn_msg].
    Signals deriving from [BaseException] only (interpreter exit, task
    cancellation) are outside the model. *)
Record exn : Type := Exn { exn_class : string; exn_msg : string }.

Definition NameError (name : string) : exn :=
  Exn "NameError" ("name '" +:+ name +:+ "' is not defined").

Definition AttributeError (name : string) : exn :=
  Exn "AttributeError" ("object has no attribute '" +:+ name +:+ "'").

Definition TypeError (op : string) : exn :=
  Exn "TypeError" ("'" +:+ op +:+ "' not supported between these instances").

Inductive outcome (A : Type) : Type :=
| Return (a : A)
| Raise (e : exn).
Arguments Return {A} a.
Arguments Raise {A} e.

Definition raised {A} (o : outcome A) : bool :=
  match o with Return _ => false | Raise _ => true end.

(** The monad of the [async def] bodies over a mutable state [S].
    The first argument bounds the number of subscriber invocations of
    each emission loop; [None] means the bound was reached. *)
Definition M (S A : Type) : Type := nat -> S -> option (outcome A * S).

Definition ret {S A} (a : A) : M S A := fun _ s => Some (Return a, s).
Definition raise {S A} (e : exn) : M S A := fun _ s => Some (Raise e, s).

Definition bind {S A B} (m : M S A) (k : A -> M S B) : M S B :=
  fun fuel s =>
    match m fuel s with
    | None => None
    | Some (Return a, s') => k a fuel s'
    | Some (Raise e, s') => Some (Raise e, s')
    end.

(** [try: body except Exception as e: handler e] *)
Definition try_except {S A} (body : M S A) (handler : exn -> M S A) : M S A :=
  fun fuel s =>
    match body fuel s with
    | None => None
    | Some (Return a, s') => Some (Return a, s')
    | Some (Raise e, s') => handler e fuel s'
    end.

Definition of_outcome {S A} (o : outcome A) : M S A := fun _ s => Some (o, s).

Definition get {S} : M S S := fun _ s => Some (Return s, s).
Definition modify {S} (f : S -> S) : M S unit := fun _ s => Some (Return tt, f s).

(** Numbers under [<]: [bool] is a subclass of [int]. *)
Definition as_number (v : value) : option Q :=
  match v with
  | VBool b => Some (if b then 1%Q else 0%Q)
  | VInt z => Some (inject_Z z)
  | VFloat q => Some q
  | VNone | VStr _ => None
  end.

(** [a < b] where one side is a number of the sources. *)
Definition lt (a b : value) : outcome bool :=
  match as_number a, as_number b with
  | Some x, Some y => Return (negb (Qle_bool y x))
  | _, _ => Raise (TypeError "<")
  end.

(** [min(a, b)]: [b] when [b < a], else the first argument. *)
Definition min (a b : value) : outcome value :=
  match lt b a with
  | Return c => Return (if c then b else a)
  | Raise e => Raise e
  end.

(** [max(a, b)]: [b] when [b > a], that is [a < b], else the first. *)
Definition max (a b : value) : outcome value :=
  match lt a b with
  | Return c => Return (if c then b else a)
  | Raise e => Raise e
  end.

(** A global name of a module: bound when the module's own [import]
    and [def]/[class] statements bind it, a [NameError] otherwise. *)
Definition load_global {S A} (globals : list string) (name : string) (v : A) : M S A :=
  if bool_decide (name ∈ globals) then ret v else raise (NameError name).

End Py.

Import Py.

Declare Scope py_scope.
Delimit Scope py_scope with py.
Notation "x <- m ;; k" := (Py.bind m (fun x => k))
  (at level 100, m at next level, right associativity) : py_scope.
Notation "m ;;; k" := (Py.bind m (fun _ => k))
  (at level 100, right associativity) : py_scope.
Open Scope py_scope.

(** ** [base.py]: enumerations and models *)

Inductive PluginStatus : Type := LOADED | RUNNING | STOPPED | ERROR | DISABLED.

Inductive DeviceCapability : Type :=
| ON_OFF | BRIGHTNESS | COLOR | TEMPERATURE | HUMIDITY | MOTION
| DOOR_WINDOW | VOLUME | CHANNEL.

Global Instance PluginStatus_eq_dec : EqDecision PluginStatus.
Proof. solve_decision. Defined.
Global Instance DeviceCapability_eq_dec : EqDecision DeviceCapability.
Proof. solve_decision. Defined.
Global Instance Q_eq_dec : EqDecision Q.
Proof. solve_decision. Defined.
Global Instance value_eq_dec : EqDecision value.
Proof. solve_decision. Defined.

(** [datetime.utcnow()] readings, in microseconds since the epoch; the
    ISO-8601 rendering of [isoformat()] is not modelled. *)
Definition Timestamp : Type := N.

Module DeviceInfo.
Record t : Type := Build {
  id : string;
  name : string;
  manufacturer : option string;
  model : option string;
  firmware_version : option string;
  capabilities : list DeviceCapability;
  properties : gmap string value;
  room : option string
}.
End DeviceInfo.

Module DeviceState.
Record t : Type := Build {
  device_id : string;
  properties : gmap string value;
  last_updated : Timestamp;
  online : bool
}.
End DeviceState.

(** The payload dictionaries built at the call sites of [_emit_event]. *)
Inductive EventData : Type :=
| device_added_data (device : DeviceInfo.t)
| device_removed_data (device_id : string)
| state_changed_data (state : DeviceState.t)
| action_executed_data (device_id action : string)
    (parameters : gmap string value) (result : bool)
| device_calibrated_data (device_id : string)
| error_data (error : string).

Module Event.
Record t : Type := Build {
  plugin : string;
  type : string;
  data : EventData;
  timestamp : string
}.
End Event.

(** Subscribers are callables compared by identity; a natural number
    names each one. *)
Definition Handler : Type := nat.

(** The concrete classes deriving from [BasePlugin]: the two built-in
    integrations and the externally supplied ones. *)
Inductive PluginClass : Type :=
| PhilipsHuePlugin
| XiaomiSensorsPlugin
| ExternalPlugin (n : nat).

Global Instance PluginClass_eq_dec : EqDecision PluginClass.
Proof. solve_decision. Defined.

(** The attributes set by [BasePlugin.__init__], the class of the
    object, and the attributes added by the subclass constructor
    ([attrs]: [bridge_ip], [username], ...). *)
Record BasePlugin : Type := mkBasePlugin {
  klass : PluginClass;
  config : gmap string value;
  status : PluginStatus;
  devices : gmap string DeviceInfo.t;
  device_states : gmap string DeviceState.t;
  _event_handlers : list Handler;
  _running : bool;
  attrs : gmap string value
}.

(** The state an instance method runs in: the object itself, the number
    of clock readings taken so far, what has been printed, and the
    record of subscriber invocations made by [_emit_event]. *)
Record PState : Type := mkPState {
  self : BasePlugin;
  clock_reads : nat;
  stdout : list string;
  delivered : list (Handler * Event.t)
}.

Definition set_self (f : BasePlugin -> BasePlugin) (s : PState) : PState :=
  mkPState (f (self s)) (clock_reads s) (stdout s) (delivered s).

Definition set_status (v : PluginStatus) (p : BasePlugin) : BasePlugin :=
  mkBasePlugin (klass p) (config p) v (devices p) (device_states p)
    (_event_handlers p) (_running p) (attrs p).

Definition set_devices (v : gmap string DeviceInfo.t) (p : BasePlugin) : BasePlugin :=
  mkBasePlugin (klass p) (config p) (status p) v (device_states p)
    (_event_handlers p) (_running p) (attrs p).

Definition set_device_states (v : gmap string DeviceState.t) (p : BasePlugin) : BasePlugin :=
  mkBasePlugin (klass p) (config p) (status p) (devices p) v
    (_event_handlers p) (_running p) (attrs p).

Definition set_event_handlers (v : list Handler) (p : BasePlugin) : BasePlugin :=
  mkBasePlugin (klass p) (config p) (status p) (devices p) (device_states p)
    v (_running p) (attrs p).

(** [BasePlugin.__init__] *)
Definition BasePlugin_init (cls : PluginClass) (cfg : option (gmap string value)) : BasePlugin :=
  mkBasePlugin cls (default ∅ cfg) LOADED ∅ ∅ [] false ∅.

(** [add_event_handler]: [list.append] *)
Definition add_event_handler (handler : Handler) (p : BasePlugin) : BasePlugin :=
  set_event_handlers (_event_handlers p ++ [handler]) p.

(** [list.remove]: drops the first occurrence. *)
Fixpoint list_remove (handler : Handler) (l : list Handler) : list Handler :=
  match l with
  | [] => []
  | h :: t => if decide (h = handler) then t else h :: list_remove handler t
  end.

(** [remove_event_handler] *)
Definition remove_event_handler (handler : Handler) (p : BasePlugin) : BasePlugin :=
  if bool_decide (handler ∈ _event_handlers p)
  then set_event_handlers (list_remove handler (_event_handlers p)) p
  else p.

(** ** Externally supplied integrations

    A class registered from outside the package is known only through
    the abstract interface of [BasePlugin]: the name in its [info], the
    attributes its constructor adds (or the exception it raises), and
    its implementations of the abstract methods, which may do to the
    running state whatever Python allows. *)
Record ExternalClass : Type := mkExternalClass {
  ext_name : string;
  ext_init : gmap string value -> outcome (gmap string value);
  ext_initialize : PState -> outcome bool * PState;
  ext_start : PState -> outcome bool * PState;
  ext_stop : PState -> outcome bool * PState;
  ext_discover_devices : PState -> outcome (list DeviceInfo.t) * PState;
  ext_execute_device_action :
    string -> string -> gmap string value -> PState -> outcome bool * PState
}.

(** ** [manager.py]: the state of a [PluginManager] *)

Module PluginManager.
Record t : Type := Build {
  plugin_directories : list string;
  plugins : gmap string BasePlugin;
  plugin_classes : gmap string PluginClass;
  _event_handlers : list Handler;
  _running : bool
}.
End PluginManager.

(** The state a manager method runs in; the last three components are
    those of [PState]. *)
Record MState : Type := mkMState {
  manager : PluginManager.t;
  m_clock_reads : nat;
  m_stdout : list string;
  m_delivered : list (Handler * Event.t)
}.

Definition set_plugins (v : gmap string BasePlugin) (ms : MState) : MState :=
  let m := manager ms in
  mkMState
    (PluginManager.Build (PluginManager.plugin_directories m) v
       (PluginManager.plugin_classes m) (PluginManager._event_handlers m)
       (PluginManager._running m))
    (m_clock_reads ms) (m_stdout ms) (m_delivered ms).

(** [print(msg)] *)
Definition print (msg : string) : M MState unit :=
  modify (fun ms =>
    mkMState (manager ms) (m_clock_reads ms) (m_stdout ms ++ [msg]) (m_delivered ms)).

(** A method call on an object that is not (yet) stored in
    [self.plugins]: the result comes with the object as the call left it. *)
Definition call_local {A} (plugin : BasePlugin) (m : M PState A) : M MState (A * BasePlugin) :=
  fun fuel ms =>
    match m fuel (mkPState plugin (m_clock_reads ms) (m_stdout ms) (m_delivered ms)) with
    | None => None
    | Some (o, ps) =>
        let ms' := mkMState (manager ms) (clock_reads ps) (stdout ps) (delivered ps) in
        match o with
        | Return a => Some (Return (a, self ps), ms')
        | Raise e => Some (Raise e, ms')
        end
    end.

(** A method call on the object stored under [name] in [self.plugins]:
    the mutations of the object are visible through the dictionary
    whether the call returns or raises. *)
Definition call_plugin {A} (name : string) (plugin : BasePlugin) (m : M PState A) : M MState A :=
  fun fuel ms =>
    match m fuel (mkPState plugin (m_clock_reads ms) (m_stdout ms) (m_delivered ms)) with
    | None => None
    | Some (o, ps) =>
        Some (o, set_plugins (<[name := self ps]> (PluginManager.plugins (manager ms)))
                   (mkMState (manager ms) (clock_reads ps) (stdout ps) (delivered ps)))
    end.

Definition lift_ext {A} (f : PState -> outcome A * PState) : M PState A :=
  fun _ s => Some (f s).

Section Runtime.

(** What calling subscriber [h] on an event does: it returns or raises,
    and may have changed the instance it was registered on (its
    subscriber list included, through [add_event_handler] and
    [remove_event_handler], which mutate the list in place). *)
Variable run_handler : Handler -> Event.t -> BasePlugin -> outcome unit * BasePlugin.

(** The value of the [k]-th reading of [datetime.utcnow()]. *)
Variable utcnow : nat -> Timestamp.

Variable external : nat -> ExternalClass.

(** [self.info.name] *)
Definition info_name (cls : PluginClass) : string :=
  match cls with
  | PhilipsHuePlugin => "philips_hue"
  | XiaomiSensorsPlugin => "xiaomi_sensors"
  | ExternalPlugin n => ext_name (external n)
  end.

(** *** The event bus: [_emit_event] *)

(** The [for handler in self._event_handlers] loop.  Python's list
    iterator keeps an index into the live list: each round it reads
    the element at that index, if there is one, and advances.  The
    body calls the handler, awaited when it is a coroutine function and
    plainly otherwise, one after the other, inside
    [try ... except Exception: pass]. *)
Fixpoint emit_loop (fuel i : nat) (event : Event.t) (s : PState) : option PState :=
  match _event_handlers (self s) !! i with
  | None => Some s
  | Some handler =>
      match fuel with
      | 0 => None
      | S fuel' =>
          let '(o, p') := run_handler handler event (self s) in
          let s' := mkPState p' (clock_reads s) (stdout s)
                      (delivered s ++ [(handler, event)]) in
          match o with
          | Return _ => emit_loop fuel' (S i) event s'
          | Raise _ => (* pass *) emit_loop fuel' (S i) event s'
          end
      end
  end.

Definition make_event (s : PState) (event_type : string) (data : EventData) : Event.t :=
  Event.Build (info_name (klass (self s))) event_type data "2024-01-01T00:00:00Z".

Definition _emit_event (event_type : string) (data : EventData) : M PState unit :=
  fun fuel s =>
    match emit_loop fuel 0 (make_event s event_type data) s with
    | None => None
    | Some s' => Some (Return tt, s')
    end.

(** *** The device registry *)

Definition add_device (device : DeviceInfo.t) : M PState bool :=
  try_except
    (modify (set_self (fun p =>
       set_devices (<[DeviceInfo.id device := device]> (devices p)) p)) ;;;
     _emit_event "device_added" (device_added_data device) ;;;
     ret true)
    (fun e =>
     _emit_event "error" (error_data (exn_msg e)) ;;;
     ret false).

Definition remove_device (device_id : string) : M PState bool :=
  try_except
    (s <- get ;;
     if bool_decide (is_Some (devices (self s) !! device_id)) then
       modify (set_self (fun p => set_devices (delete device_id (devices p)) p)) ;;;
       s <- get ;;
       (if bool_decide (is_Some (device_states (self s) !! device_id)) then
          modify (set_self (fun p =>
            set_device_states (delete device_id (device_states p)) p))
        else ret tt) ;;;
       _emit_event "device_removed" (device_removed_data device_id) ;;;
       ret true
     else ret false)
    (fun e =>
     _emit_event "error" (error_data (exn_msg e)) ;;;
     ret false).

Definition get_device_state (device_id : string) : M PState (option DeviceState.t) :=
  s <- get ;; ret (device_states (self s) !! device_id).

(** [datetime.utcnow()] *)
Definition datetime_utcnow : M PState Timestamp :=
  fun _ s =>
    Some (Return (utcnow (clock_reads s)),
          mkPState (self s) (S (clock_reads s)) (stdout s) (delivered s)).

Definition update_device_state (device_id : string)
    (properties : gmap string value) : M PState bool :=
  try_except
    (s <- get ;;
     if negb (bool_decide (is_Some (devices (self s) !! device_id))) then
       ret false
     else
       now <- datetime_utcnow ;;
       let state := DeviceState.Build device_id properties now true in
       modify (set_self (fun p =>
         set_device_states (<[device_id := state]> (device_states p)) p)) ;;;
       _emit_event "state_changed" (state_changed_data state) ;;;
       ret true)
    (fun e =>
     _emit_event "error" (error_data (exn_msg e)) ;;;
     ret false).

(** [health_check] of [BasePlugin]: the four entries of the dictionary. *)
Record Health : Type := mkHealth {
  health_status : PluginStatus;
  devices_count : nat;
  online_devices : nat;
  last_check : string
}.

Definition health_check : M PState Health :=
  s <- get ;;
  ret (mkHealth
         (status (self s))
         (size (devices (self s)))
         (length (filter (fun d => DeviceState.online d = true)
                    (snd <$> map_to_list (device_states (self s)))))
         "2024-01-01T00:00:00Z").


(** *** [examples/philips_hue.py] *)

(** The names bound at module level by the file's [import] and
    [class] statements. *)
Definition philips_hue_globals : list string :=
  ["asyncio"; "Any"; "Dict"; "List"; "BasePlugin"; "PluginInfo"; "PluginType";
   "DeviceCapability"; "DeviceInfo"; "PhilipsHuePlugin"].

(** [self.<name>] for an attribute set by the subclass constructor. *)
Definition getattr (name : string) : M PState value :=
  s <- get ;;
  match attrs (self s) !! name with
  | Some v => ret v
  | None => raise (AttributeError name)
  end.

(** [await asyncio.sleep(_)]: a suspension point, no effect on [self]. *)
Definition asyncio_sleep : M PState unit := ret tt.

(** [asyncio.create_task(coro)]: the coroutine is only scheduled; it
    takes its first step at a later suspension point of the caller. *)
Definition asyncio_create_task : M PState unit := ret tt.

(** [PhilipsHuePlugin.__init__] *)
Definition PhilipsHuePlugin_init (cfg : option (gmap string value)) : BasePlugin :=
  let p := BasePlugin_init PhilipsHuePlugin cfg in
  mkBasePlugin (klass p) (config p) (status p) (devices p) (device_states p)
    (_event_handlers p) (_running p)
    (<["_client" := VNone]>
       (<["username" := dict_get (config p) "username" (VStr "")]>
          (<["bridge_ip" := dict_get (config p) "bridge_ip" (VStr "192.168.1.100")]> ∅))).

Definition philips_initialize : M PState bool :=
  try_except
    (asyncio_sleep ;;;
     bridge_ip <- getattr "bridge_ip" ;;
     username <- getattr "username" ;;
     if negb (truthy bridge_ip) || negb (truthy username) then ret false
     else
       v <- load_global philips_hue_globals "PluginStatus" LOADED ;;
       modify (set_self (set_status v)) ;;;
       ret true)
    (fun e =>
     v <- load_global philips_hue_globals "PluginStatus" ERROR ;;
     modify (set_self (set_status v)) ;;;
     ret false).

Definition philips_start : M PState bool :=
  try_except
    (asyncio_create_task ;;;
     v <- load_global philips_hue_globals "PluginStatus" RUNNING ;;
     modify (set_self (set_status v)) ;;;
     ret true)
    (fun e =>
     v <- load_global philips_hue_globals "PluginStatus" ERROR ;;
     modify (set_self (set_status v)) ;;;
     ret false).

Definition philips_stop : M PState bool :=
  try_except
    (v <- load_global philips_hue_globals "PluginStatus" STOPPED ;;
     modify (set_self (set_status v)) ;;;
     ret true)
    (fun _ => ret false).

Definition philips_devices (bridge_ip : value) : list DeviceInfo.t :=
  [ DeviceInfo.Build "hue_light_001" "Lumière Salon Hue" (Some "Philips")
      (Some "Hue White and Color") (Some "1.2.3")
      [ON_OFF; BRIGHTNESS; COLOR] {["bridge_ip" := bridge_ip]} (Some "salon");
    DeviceInfo.Build "hue_light_002" "Lumière Chambre Hue" (Some "Philips")
      (Some "Hue White") (Some "1.1.0")
      [ON_OFF; BRIGHTNESS] {["bridge_ip" := bridge_ip]} (Some "chambre") ].

(** The body of a [for x in xs] loop over a list the body does not touch. *)
Fixpoint for_each {S A} (xs : list A) (body : A -> M S unit) : M S unit :=
  match xs with
  | [] => ret tt
  | x :: xs' => body x ;;; for_each xs' body
  end.

Definition philips_discover_devices : M PState (list DeviceInfo.t) :=
  try_except
    (bridge_ip <- getattr "bridge_ip" ;;
     let devices := philips_devices bridge_ip in
     for_each devices (fun device =>
       add_device device ;;;
       update_device_state (DeviceInfo.id device)
         (<["color" := VStr "#FFFFFF"]>
            (<["brightness" := VInt 0]> {["power" := VBool false]})) ;;;
       ret tt) ;;;
     ret devices)
    (fun _ => ret []).

Definition philips_execute_device_action (device_id action : string)
    (parameters : gmap string value) : M PState bool :=
  try_except
    (if String.eqb action "turn_on" then
       update_device_state device_id
         (<["color" := dict_get parameters "color" (VStr "#FFFFFF")]>
            (<["brightness" := dict_get parameters "brightness" (VInt 100)]>
               {["power" := VBool true]})) ;;;
       ret true
     else if String.eqb action "turn_off" then
       update_device_state device_id
         (<["brightness" := VInt 0]> {["power" := VBool false]}) ;;;
       ret true
     else if String.eqb action "set_brightness" then
       let brightness := dict_get parameters "brightness" (VInt 50) in
       lo <- of_outcome (Py.min (VInt 100) brightness) ;;
       b <- of_outcome (Py.max (VInt 0) lo) ;;
       update_device_state device_id {["brightness" := b]} ;;;
       ret true
     else if String.eqb action "set_color" then
       let color := dict_get parameters "color" (VStr "#FFFFFF") in
       update_device_state device_id
         (<["power" := VBool true]> {["color" := color]}) ;;;
       ret true
     else ret false)
    (fun _ => ret false).

(** *** [examples/xiaomi_sensors.py] *)

Definition xiaomi_sensors_globals : list string :=
  ["asyncio"; "random"; "Any"; "Dict"; "List"; "BasePlugin"; "PluginInfo";
   "PluginType"; "DeviceCapability"; "DeviceInfo"; "XiaomiSensorsPlugin"].

(** [XiaomiSensorsPlugin.__init__] *)
Definition XiaomiSensorsPlugin_init (cfg : option (gmap string value)) : BasePlugin :=
  let p := BasePlugin_init XiaomiSensorsPlugin cfg in
  mkBasePlugin (klass p) (config p) (status p) (devices p) (device_states p)
    (_event_handlers p) (_running p)
    (<["_mqtt_client" := VNone]>
       (<["gateway_token" := dict_get (config p) "gateway_token" (VStr "")]>
          (<["gateway_ip" := dict_get (config p) "gateway_ip" (VStr "192.168.1.50")]> ∅))).

Definition xiaomi_initialize : M PState bool :=
  try_except
    (asyncio_sleep ;;;
     gateway_ip <- getattr "gateway_ip" ;;
     gateway_token <- getattr "gateway_token" ;;
     if negb (truthy gateway_ip) || negb (truthy gateway_token) then ret false
     else
       v <- load_global xiaomi_sensors_globals "PluginStatus" LOADED ;;
       modify (set_self (set_status v)) ;;;
       ret true)
    (fun e =>
     v <- load_global xiaomi_sensors_globals "PluginStatus" ERROR ;;
     modify (set_self (set_status v)) ;;;
     ret false).

Definition xiaomi_start : M PState bool :=
  try_except
    (asyncio_create_task ;;;
     v <- load_global xiaomi_sensors_globals "PluginStatus" RUNNING ;;
     modify (set_self (set_status v)) ;;;
     ret true)
    (fun e =>
     v <- load_global xiaomi_sensors_globals "PluginStatus" ERROR ;;
     modify (set_self (set_status v)) ;;;
     ret false).

Definition xiaomi_stop : M PState bool :=
  try_except
    (v <- load_global xiaomi_sensors_globals "PluginStatus" STOPPED ;;
     modify (set_self (set_status v)) ;;;
     ret true)
    (fun _ => ret false).

Definition xiaomi_devices (gateway_ip : value) : list DeviceInfo.t :=
  [ DeviceInfo.Build "xiaomi_temp_001" "Capteur Température Salon" (Some "Xiaomi")
      (Some "Mi Temperature Sensor") (Some "2.1.0")
      [TEMPERATURE; HUMIDITY]
      (<["battery_type" := VStr "CR2032"]> {["gateway_ip" := gateway_ip]})
      (Some "salon");
    DeviceInfo.Build "xiaomi_door_001" "Capteur Porte Entrée" (Some "Xiaomi")
      (Some "Mi Door Sensor") (Some "1.5.2")
      [DOOR_WINDOW]
      (<["battery_type" := VStr "CR2032"]> {["gateway_ip" := gateway_ip]})
      (Some "entrée");
    DeviceInfo.Build "xiaomi_motion_001" "Capteur Mouvement Couloir" (Some "Xiaomi")
      (Some "Mi Motion Sensor") (Some "2.0.1")
      [MOTION]
      (<["battery_type" := VStr "CR2450"]> {["gateway_ip" := gateway_ip]})
      (Some "couloir") ].

Definition xiaomi_discover_devices : M PState (list DeviceInfo.t) :=
  try_except
    (gateway_ip <- getattr "gateway_ip" ;;
     let devices := xiaomi_devices gateway_ip in
     for_each devices (fun device =>
       add_device device ;;;
       if bool_decide (TEMPERATURE ∈ DeviceInfo.capabilities device) then
         update_device_state (DeviceInfo.id device)
           (<["battery" := VInt 85]>
              (<["humidity" := VInt 45]> {["temperature" := VFloat (45 # 2)]})) ;;;
         ret tt
       else if bool_decide (DOOR_WINDOW ∈ DeviceInfo.capabilities device) then
         update_device_state (DeviceInfo.id device)
           (<["battery" := VInt 90]> {["contact" := VBool true]}) ;;;
         ret tt
       else if bool_decide (MOTION ∈ DeviceInfo.capabilities device) then
         update_device_state (DeviceInfo.id device)
           (<["battery" := VInt 80]>
              (<["last_motion" := VNone]> {["motion" := VBool false]})) ;;;
         ret tt
       else ret tt) ;;;
     ret devices)
    (fun _ => ret []).

Definition xiaomi_execute_device_action (device_id action : string)
    (parameters : gmap string value) : M PState bool :=
  try_except
    (if String.eqb action "calibrate" then
       asyncio_sleep ;;;
       _emit_event "device_calibrated" (device_calibrated_data device_id) ;;;
       ret true
     else if String.eqb action "reset_battery" then
       update_device_state device_id {["battery" := VInt 100]} ;;;
       ret true
     else ret false)
    (fun _ => ret false).

(** *** Method resolution on the class of [self] *)

(** [plugin_class(config)] *)
Definition new_plugin (cls : PluginClass) (cfg : option (gmap string value))
  : outcome BasePlugin :=
  match cls with
  | PhilipsHuePlugin => Return (PhilipsHuePlugin_init cfg)
  | XiaomiSensorsPlugin => Return (XiaomiSensorsPlugin_init cfg)
  | ExternalPlugin n =>
      let p := BasePlugin_init cls cfg in
      match ext_init (external n) (config p) with
      | Return a =>
          Return (mkBasePlugin (klass p) (config p) (status p) (devices p)
                    (device_states p) (_event_handlers p) (_running p) a)
      | Raise e => Raise e
      end
  end.

Definition initialize : M PState bool :=
  s <- get ;;
  match klass (self s) with
  | PhilipsHuePlugin => philips_initialize
  | XiaomiSensorsPlugin => xiaomi_initialize
  | ExternalPlugin n => lift_ext (ext_initialize (external n))
  end.

Definition start : M PState bool :=
  s <- get ;;
  match klass (self s) with
  | PhilipsHuePlugin => philips_start
  | XiaomiSensorsPlugin => xiaomi_start
  | ExternalPlugin n => lift_ext (ext_start (external n))
  end.

Definition stop : M PState bool :=
  s <- get ;;
  match klass (self s) with
  | PhilipsHuePlugin => philips_stop
  | XiaomiSensorsPlugin => xiaomi_stop
  | ExternalPlugin n => lift_ext (ext_stop (external n))
  end.

Definition discover_devices : M PState (list DeviceInfo.t) :=
  s <- get ;;
  match klass (self s) with
  | PhilipsHuePlugin => philips_discover_devices
  | XiaomiSensorsPlugin => xiaomi_discover_devices
  | ExternalPlugin n => lift_ext (ext_discover_devices (external n))
  end.

Definition _execute_device_action (device_id action : string)
    (parameters : gmap string value) : M PState bool :=
  s <- get ;;
  match klass (self s) with
  | PhilipsHuePlugin => philips_execute_device_action device_id action parameters
  | XiaomiSensorsPlugin => xiaomi_execute_device_action device_id action parameters
  | ExternalPlugin n =>
      lift_ext (ext_execute_device_action (external n) device_id action parameters)
  end.

(** [BasePlugin.execute_action] *)
Definition execute_action (device_id action : string)
    (parameters : option (gmap string value)) : M PState bool :=
  s <- get ;;
  if negb (bool_decide (is_Some (devices (self s) !! device_id))) then ret false
  else
    let parameters := default ∅ parameters in
    try_except
      (result <- _execute_device_action device_id action parameters ;;
       _emit_event "action_executed"
         (action_executed_data device_id action parameters result) ;;;
       ret result)
      (fun e =>
       _emit_event "error" (error_data (exn_msg e)) ;;;
       ret false).


(** *** [manager.py]: [PluginManager] *)

(** [PluginManager.__init__] with [_register_builtin_plugins] *)
Definition PluginManager_init (plugin_directories : option (list string)) : PluginManager.t :=
  PluginManager.Build
    (match plugin_directories with
     | Some (d :: ds) => d :: ds
     | _ => ["./src/plugins"]
     end)
    ∅
    (<["xiaomi_sensors" := XiaomiSensorsPlugin]> {["philips_hue" := PhilipsHuePlugin]})
    [] false.

Definition load_plugin (plugin_name : string) (config : option (gmap string value))
  : M MState bool :=
  ms <- get ;;
  if bool_decide (is_Some (PluginManager.plugins (manager ms) !! plugin_name)) then
    print ("Plugin " +:+ plugin_name +:+ " already loaded") ;;;
    ret true
  else
    match PluginManager.plugin_classes (manager ms) !! plugin_name with
    | None =>
        print ("Plugin " +:+ plugin_name +:+ " not found") ;;;
        ret false
    | Some plugin_class =>
        try_except
          (plugin <- of_outcome (new_plugin plugin_class (Some (default ∅ config))) ;;
           let plugin :=
             foldl (fun p handler => add_event_handler handler p) plugin
               (PluginManager._event_handlers (manager ms)) in
           r <- call_local plugin initialize ;;
           let '(ok, plugin) := r in
           if (ok : bool) then
             modify (fun ms =>
               set_plugins (<[plugin_name := plugin]> (PluginManager.plugins (manager ms))) ms) ;;;
             print ("Plugin " +:+ plugin_name +:+ " loaded successfully") ;;;
             ret true
           else
             print ("Plugin " +:+ plugin_name +:+ " initialization failed") ;;;
             ret false)
          (fun e =>
           print ("Failed to load plugin " +:+ plugin_name +:+ ": " +:+ exn_msg e) ;;;
           ret false)
    end.


Definition start_plugin (plugin_name : string) : M MState bool :=
  ms <- get ;;
  match PluginManager.plugins (manager ms) !! plugin_name with
  | None => ret false
  | Some plugin =>
      try_except
        (ok <- call_plugin plugin_name plugin start ;;
         if (ok : bool) then
           print ("Plugin " +:+ plugin_name +:+ " started successfully") ;;;
           ret true
         else
           print ("Plugin " +:+ plugin_name +:+ " failed to start") ;;;
           ret false)
        (fun e =>
         print ("Failed to start plugin " +:+ plugin_name +:+ ": " +:+ exn_msg e) ;;;
         ret false)
  end.

(** The loop of [discover_all_devices] over [self.plugins.items()];
    the body leaves the set of keys of [self.plugins] as it is. *)
Fixpoint discover_loop (items : list (string * BasePlugin))
    (all_devices : gmap string (list DeviceInfo.t))
  : M MState (gmap string (list DeviceInfo.t)) :=
  match items with
  | [] => ret all_devices
  | (plugin_name, plugin) :: rest =>
      all_devices <-
        try_except
          (devices <- call_plugin plugin_name plugin discover_devices ;;
           ret (<[plugin_name := devices]> all_devices))
          (fun e =>
           print ("Failed to discover devices for plugin " +:+ plugin_name +:+ ": "
                  +:+ exn_msg e) ;;;
           ret (<[plugin_name := []]> all_devices)) ;;
      discover_loop rest all_devices
  end.

Definition discover_all_devices : M MState (gmap string (list DeviceInfo.t)) :=
  ms <- get ;;
  discover_loop (map_to_list (PluginManager.plugins (manager ms))) ∅.

End Runtime.

(** ** Conditions on subscribers and registries used by the statements *)

Section Conditions.

Variable run_handler : Handler -> Event.t -> BasePlugin -> outcome unit * BasePlugin.
Variable utcnow : nat -> Timestamp.

(** No subscriber ever changes component [f] of the instance. *)
Definition keeps {T} (f : BasePlugin -> T) : Prop :=
  ∀ h ev p, f (snd (run_handler h ev p)) = f p.

(** Subscribers that leave the registry and the subscriber list of
    the instance alone. *)
Definition quiet_handlers : Prop :=
  keeps devices ∧ keeps device_states ∧ keeps _event_handlers.

(** The subscribers in [l] do not change the subscriber list [l] when
    they are called on [event]. *)
Definition stable_on (l : list Handler) (event : Event.t) : Prop :=
  ∀ h p, h ∈ l → _event_handlers p = l →
    _event_handlers (snd (run_handler h event p)) = l.

(** The readings of the clock never go back. *)
Definition monotone_clock : Prop :=
  ∀ i j : nat, (i ≤ j)%nat → (utcnow i <= utcnow j)%N.

End Conditions.

(** The invocations of the subscribers in [l] on [event], in order. *)
Definition deliveries (l : list Handler) (event : Event.t) : list (Handler * Event.t) :=
  (fun h => (h, event)) <$> l.


(** ** [manager.py]: the remaining operations of [PluginManager] *)

(** [PluginManager.add_event_handler]: the handler is appended to the
    global list and registered on every loaded instance. *)
Definition PluginManager_add_event_handler (handler : Handler) (m : PluginManager.t)
  : PluginManager.t :=
  PluginManager.Build
    (PluginManager.plugin_directories m)
    (add_event_handler handler <$> PluginManager.plugins m)
    (PluginManager.plugin_classes m)
    (PluginManager._event_handlers m ++ [handler])
    (PluginManager._running m).

(** [PluginManager.remove_event_handler]: the global list drops the
    handler if it holds it; the loop over the loaded instances runs in
    both cases. *)
Definition PluginManager_remove_event_handler (handler : Handler) (m : PluginManager.t)
  : PluginManager.t :=
  PluginManager.Build
    (PluginManager.plugin_directories m)
    (remove_event_handler handler <$> PluginManager.plugins m)
    (PluginManager.plugin_classes m)
    (if bool_decide (handler ∈ PluginManager._event_handlers m)
     then list_remove handler (PluginManager._event_handlers m)
     else PluginManager._event_handlers m)
    (PluginManager._running m).

Section RuntimeAll.

Variable run_handler : Handler -> Event.t -> BasePlugin -> outcome unit * BasePlugin.
Variable utcnow : nat -> Timestamp.
Variable external : nat -> ExternalClass.

Definition stop_plugin (plugin_name : string) : M MState bool :=
  ms <- get ;;
  match PluginManager.plugins (manager ms) !! plugin_name with
  | None => ret false
  | Some plugin =>
      try_except
        (ok <- call_plugin plugin_name plugin (stop external) ;;
         if (ok : bool) then
           print ("Plugin " +:+ plugin_name +:+ " stopped successfully") ;;;
           ret true
         else
           print ("Plugin " +:+ plugin_name +:+ " failed to stop") ;;;
           ret false)
        (fun e =>
         print ("Failed to stop plugin " +:+ plugin_name +:+ ": " +:+ exn_msg e) ;;;
         ret false)
  end.

(** The loop [for plugin_name in self.plugins: results[plugin_name] =
    await action(plugin_name)] of [start_all_plugins] and
    [stop_all_plugins]; the body leaves the keys of [self.plugins] as
    they are. *)
Fixpoint all_plugins_loop (action : string -> M MState bool) (names : list string)
    (results : gmap string bool) : M MState (gmap string bool) :=
  match names with
  | [] => ret results
  | plugin_name :: rest =>
      r <- action plugin_name ;;
      all_plugins_loop action rest (<[plugin_name := r]> results)
  end.

Definition start_all_plugins : M MState (gmap string bool) :=
  ms <- get ;;
  all_plugins_loop (start_plugin external)
    (map_to_list (PluginManager.plugins (manager ms))).*1 ∅.

Definition stop_all_plugins : M MState (gmap string bool) :=
  ms <- get ;;
  all_plugins_loop stop_plugin
    (map_to_list (PluginManager.plugins (manager ms))).*1 ∅.

(** The loop of [_load_configured_plugins] over
    [self.plugin_classes.items()]: each class is loaded under its key
    with no configuration. *)
Fixpoint load_configured_loop (names : list string) : M MState unit :=
  match names with
  | [] => ret tt
  | plugin_name :: rest =>
      try_except
        (load_plugin external plugin_name None ;;; ret tt)
        (fun e =>
         print ("Failed to load plugin " +:+ plugin_name +:+ ": " +:+ exn_msg e)) ;;;
      load_configured_loop rest
  end.

Definition _load_configured_plugins : M MState unit :=
  ms <- get ;;
  load_configured_loop (map_to_list (PluginManager.plugin_classes (manager ms))).*1.

End RuntimeAll.
(** ** Histories of a registry *)

(** The operations through which callers and the integrations
    themselves act on the registry of an instance. *)
Inductive registry_op : Type :=
| op_add_device (device : DeviceInfo.t)
| op_remove_device (device_id : string)
| op_update_device_state (device_id : string) (properties : gmap string value)
| op_execute_action (device_id action : string) (parameters : option (gmap string value))
| op_discover_devices.

(** Whether the operation may call [update_device_state] on [d]:
    directly, or from inside an integration's own code. *)
Definition updates (d : string) (op : registry_op) : bool :=
  match op with
  | op_update_device_state d' _ => bool_decide (d' = d)
  | op_execute_action _ _ _ | op_discover_devices => true
  | op_add_device _ | op_remove_device _ => false
  end.

(** The classes defined in the package itself. *)
Definition builtin (cls : PluginClass) : bool :=
  match cls with
  | PhilipsHuePlugin | XiaomiSensorsPlugin => true
  | ExternalPlugin _ => false
  end.

(** The operations whose code is in the package for the class of the
    instance; the actions and the discovery of an external class are
    not. *)
Definition in_package (cls : PluginClass) (op : registry_op) : bool :=
  match op with
  | op_execute_action _ _ _ | op_discover_devices => builtin cls
  | _ => true
  end.

Section Histories.

Variable run_handler : Handler -> Event.t -> BasePlugin -> outcome unit * BasePlugin.
Variable utcnow : nat -> Timestamp.
Variable external : nat -> ExternalClass.

Definition run_op (op : registry_op) : M PState unit :=
  match op with
  | op_add_device device =>
      add_device run_handler external device ;;; ret tt
  | op_remove_device device_id =>
      remove_device run_handler external device_id ;;; ret tt
  | op_update_device_state device_id properties =>
      update_device_state run_handler utcnow external device_id properties ;;; ret tt
  | op_execute_action device_id action parameters =>
      execute_action run_handler utcnow external device_id action parameters ;;; ret tt
  | op_discover_devices =>
      discover_devices run_handler utcnow external ;;; ret tt
  end.

(** [reach ops s]: [s] is a state of an instance whose registry was
    empty at construction and has since gone through the operations
    [ops], oldest first.  Between two operations anything may happen
    to the instance that leaves its registry alone (subscribers come
    and go, the status changes, the clock is read). *)
Inductive reach : list registry_op -> PState -> Prop :=
| reach_init s :
    devices (self s) = ∅ → device_states (self s) = ∅ → reach [] s
| reach_step ops s op fuel o s' :
    reach ops s →
    in_package (klass (self s)) op = true →
    run_op op fuel s = Some (o, s') →
    reach (ops ++ [op]) s'
| reach_other ops s s' :
    reach ops s →
    devices (self s') = devices (self s) →
    device_states (self s') = device_states (self s) →
    clock_reads s ≤ clock_reads s' →
    reach ops s'.

(** What holds of every recorded state in a reachable registry: it
    belongs to a registered device, is filed under its own id, is
    marked online, and carries a clock reading already taken. *)
Definition registry_ok (s : PState) : Prop :=
  ∀ id st, device_states (self s) !! id = Some st →
    is_Some (devices (self s) !! id)
    ∧ DeviceState.device_id st = id
    ∧ DeviceState.online st = true
    ∧ ∃ j, j < clock_reads s ∧ DeviceState.last_updated st = utcnow j.

(** A computation that maintains [registry_ok], however it ends. *)
Definition preserves {A} (m : M PState A) : Prop :=
  ∀ fuel s o s', registry_ok s → m fuel s = Some (o, s') → registry_ok s'.

End Histories.

(** ** Computations that finish *)

(** Started on an instance whose subscriber list is [l], the
    computation ends within [fuel] invocations per emission, returning
    or raising, with the subscriber list still [l]. *)
Definition finishes (l : list Handler) (fuel : nat) {A} (m : M PState A) : Prop :=
  ∀ s, _event_handlers (self s) = l →
    ∃ o s', m fuel s = Some (o, s') ∧ _event_handlers (self s') = l.

(** ** Aggregated discovery *)

Section Aggregation.

Variable run_handler : Handler -> Event.t -> BasePlugin -> outcome unit * BasePlugin.
Variable utcnow : nat -> Timestamp.
Variable external : nat -> ExternalClass.

(** What [discover_all_devices] files under the key of an instance:
    the list its discovery returned, the empty list if it raised. *)
Definition discovered (o : outcome (list DeviceInfo.t)) : list DeviceInfo.t :=
  match o with
  | Return devices => devices
  | Raise _ => []
  end.

(** The discovery of [plugin] finishes within [fuel] invocations per
    emission, in whatever state of the clock and of the output it is
    started. *)
Definition discovery_finishes (fuel : nat) (plugin : BasePlugin) : Prop :=
  ∀ c out dl, is_Some (discover_devices run_handler utcnow external fuel (mkPState plugin c out dl)).

(** The entry for [name] in the result and in [self.plugins] after
    the loop, for an instance that was [plugin] before it. *)
Definition discovery_entry (fuel : nat) (name : string) (plugin : BasePlugin)
    (result : gmap string (list DeviceInfo.t)) (ms' : MState) : Prop :=
  ∃ c out dl o ps,
    discover_devices run_handler utcnow external fuel (mkPState plugin c out dl)
    = Some (o, ps)
    ∧ result !! name = Some (discovered o)
    ∧ PluginManager.plugins (manager ms') !! name = Some (self ps).

End Aggregation.



(** ** Sample subscribers, classes and states *)

Definition sample_clock (k : nat) : Timestamp := N.of_nat k.

(** Subscriber 0 raises on every event; no subscriber touches the
    instance it is registered on. *)
Definition failing_subscribers (h : Handler) (event : Event.t) (p : BasePlugin)
  : outcome unit * BasePlugin :=
  if decide (h = 0) then (Raise (Exn "RuntimeError" "boom"), p) else (Return tt, p).

(** Subscriber 0 unsubscribes itself when it is called, with
    [plugin.remove_event_handler]; the others just return. *)
Definition self_removing_subscribers (h : Handler) (event : Event.t) (p : BasePlugin)
  : outcome unit * BasePlugin :=
  if decide (h = 0) then (Return tt, remove_event_handler 0 p) else (Return tt, p).

Definition lamp : DeviceInfo.t :=
  DeviceInfo.Build "lamp" "Desk lamp" None None None [ON_OFF] ∅ (Some "office").

Definition lamp_renamed : DeviceInfo.t :=
  DeviceInfo.Build "lamp" "Floor lamp" None None None [ON_OFF] ∅ (Some "office").

(** Two external classes: class 0 initializes and discovers [lamp];
    the discovery of every other class raises. *)
Definition sample_external (n : nat) : ExternalClass :=
  mkExternalClass
    (if decide (n = 0) then "virtual" else "unreachable")
    (fun _ => Return ∅)
    (fun s => (Return true, s))
    (fun s => (Return true, set_self (set_status RUNNING) s))
    (fun s => (Return true, set_self (set_status STOPPED) s))
    (fun s =>
       if decide (n = 0) then (Return [lamp], s)
       else (Raise (Exn "ConnectionError" "gateway unreachable"), s))
    (fun _ _ _ s => (Raise (Exn "NotImplementedError" ""), s)).

(** A Philips Hue instance as constructed with the default
    configuration, with the given subscribers registered in order. *)
Definition fresh_hue (handlers : list Handler) : PState :=
  mkPState
    (foldl (fun p handler => add_event_handler handler p) (PhilipsHuePlugin_init None) handlers)
    0 [] [].

Definition sample_properties : gmap string value :=
  <["brightness" := VInt 80]> {["power" := VBool true]}.

Definition sample_history : list registry_op :=
  [op_add_device lamp; op_update_device_state "lamp" sample_properties].

(** [fresh_hue [0; 1]] after [add_device lamp]. *)
Definition hue_with_lamp : PState :=
  Eval vm_compute in
    match add_device failing_subscribers sample_external lamp 2 (fresh_hue [0; 1]) with
    | Some (_, s) => s
    | None => fresh_hue [0; 1]
    end.

(** [hue_with_lamp] after [update_device_state "lamp" sample_properties]. *)
Definition hue_with_lamp_on : PState :=
  Eval vm_compute in
    match update_device_state failing_subscribers sample_clock sample_external
            "lamp" sample_properties 2 hue_with_lamp with
    | Some (_, s) => s
    | None => hue_with_lamp
    end.

(** A manager that knows the external class 0 under the name
    [virtual], with nothing loaded. *)
Definition sample_manager : MState :=
  mkMState
    (PluginManager.Build ["./src/plugins"] ∅ {["virtual" := ExternalPlugin 0]} [] false)
    0 [] [].

(** [sample_manager] after [load_plugin "virtual"]. *)
Definition sample_manager_loaded : MState :=
  Eval vm_compute in
    match load_plugin sample_external "virtual" None 0 sample_manager with
    | Some (_, ms) => ms
    | None => sample_manager
    end.

(** A manager with two loaded instances: [good] of class 0 and [bad]
    of class 1, whose discovery raises. *)
Definition two_instances : MState :=
  mkMState
    (PluginManager.Build ["./src/plugins"]
       (<["bad" := BasePlugin_init (ExternalPlugin 1) None]>
          {["good" := BasePlugin_init (ExternalPlugin 0) None]})
       ∅ [] false)
    0 [] [].

(** A manager as constructed, with the two built-in classes registered. *)
Definition new_manager : MState := mkMState (PluginManager_init None) 0 [] [].

(** ** Conditions used by the statements on the manager *)

(** What one round of [start_all_plugins] or [stop_all_plugins] is
    known to do: it returns a boolean, touches no instance but the one
    named, and the boolean is false for an instance of a class of the
    package. *)
Definition round_ok (action : string -> M MState bool) (fuel : nat) : Prop :=
  ∀ name ms, ∃ b ms',
    action name fuel ms = Some (Return b, ms')
    ∧ (∀ other, other ≠ name →
         PluginManager.plugins (manager ms') !! other
         = PluginManager.plugins (manager ms) !! other)
    ∧ (∀ p, PluginManager.plugins (manager ms) !! name = Some p →
         builtin (klass p) = true → b = false).


(** Every loaded instance has exactly the subscribers of the manager's
    global list, in the same order. *)
Definition handlers_in_sync (m : PluginManager.t) : Prop :=
  ∀ name p, PluginManager.plugins m !! name = Some p →
    _event_handlers p = PluginManager._event_handlers m.

(** ** More sample subscribers and states *)

(** Every subscriber subscribes itself once more each time it is
    called, with [plugin.add_event_handler]. *)
Definition growing_subscribers (h : Handler) (event : Event.t) (p : BasePlugin)
  : outcome unit * BasePlugin :=
  (Return tt, add_event_handler h p).

(** A Xiaomi instance as constructed with the default configuration,
    with the given subscribers registered in order. *)
Definition fresh_xiaomi (handlers : list Handler) : PState :=
  mkPState
    (foldl (fun p handler => add_event_handler handler p)
       (XiaomiSensorsPlugin_init None) handlers)
    0 [] [].

(** [fresh_xiaomi [0; 1]] after [add_device lamp]. *)
Definition xiaomi_with_lamp : PState :=
  Eval vm_compute in
    match add_device failing_subscribers sample_external lamp 2 (fresh_xiaomi [0; 1]) with
    | Some (_, s) => s
    | None => fresh_xiaomi [0; 1]
    end.

(** A manager holding a Philips Hue instance under [hue] and an
    instance of the external class 0 under [virtual]. *)
Definition mixed_manager : MState :=
  mkMState
    (PluginManager.Build ["./src/plugins"]
       (<["hue" := PhilipsHuePlugin_init None]>
          {["virtual" := BasePlugin_init (ExternalPlugin 0) None]})
       ∅ [] false)
    0 [] [].
(** ** Running the monad: inversion of a finished run *)

Section Runs.

Context {S : Type}.

Lemma bind_Some {A B} (m : M S A) (k : A -> M S B) fuel s o s' :
  Py.bind m k fuel s = Some (o, s') →
  (∃ a s1, m fuel s = Some (Return a, s1) ∧ k a fuel s1 = Some (o, s'))
  ∨ (∃ e, m fuel s = Some (Raise e, s') ∧ o = Raise e).
Proof.
  unfold Py.bind. destruct (m fuel s) as [[[a|e] s1]|]; [|intros [= <- <-]|done]; eauto.
Qed.

Lemma try_except_Some {A} (body : M S A) (handler : exn -> M S A) fuel s o s' :
  try_except body handler fuel s = Some (o, s') →
  (∃ a, body fuel s = Some (Return a, s') ∧ o = Return a)
  ∨ (∃ e s1, body fuel s = Some (Raise e, s1) ∧ handler e fuel s1 = Some (o, s')).
Proof.
  unfold try_except. destruct (body fuel s) as [[[a|e] s1]|]; [intros [= <- <-]| |done]; eauto.
Qed.

Lemma ret_Some {A} (a : A) fuel (s : S) o s' :
  ret a fuel s = Some (o, s') → o = Return a ∧ s' = s.
Proof. by intros [= <- <-]. Qed.

Lemma raise_Some {A} e fuel (s : S) (o : outcome A) s' :
  raise e fuel s = Some (o, s') → o = Raise e ∧ s' = s.
Proof. by intros [= <- <-]. Qed.

Lemma get_Some fuel (s : S) o s' :
  get fuel s = Some (o, s') → o = Return s ∧ s' = s.
Proof. by intros [= <- <-]. Qed.

Lemma modify_Some (f : S -> S) fuel s o s' :
  modify f fuel s = Some (o, s') → o = Return tt ∧ s' = f s.
Proof. by intros [= <- <-]. Qed.

Lemma of_outcome_Some {A} (r : outcome A) fuel (s : S) o s' :
  of_outcome r fuel s = Some (o, s') → o = r ∧ s' = s.
Proof. by intros [= <- <-]. Qed.

End Runs.

(** ** The event bus *)

Section EventBus.

Context (run_handler : Handler -> Event.t -> BasePlugin -> outcome unit * BasePlugin)
        (external : nat -> ExternalClass).

Lemma emit_loop_stable l fuel i event s :
  _event_handlers (self s) = l →
  stable_on run_handler l event →
  length l ≤ i + fuel →
  ∃ s', emit_loop run_handler fuel i event s = Some s'
    ∧ _event_handlers (self s') = l
    ∧ delivered s' = delivered s ++ deliveries (drop i l) event
    ∧ clock_reads s' = clock_reads s
    ∧ stdout s' = stdout s.
Proof.
  revert i s. induction fuel as [|fuel IH]; intros i s Hl Hst Hlen.
  - cbn. destruct (_event_handlers (self s) !! i) as [h|] eqn:E.
    + apply lookup_lt_Some in E. rewrite Hl in E. lia.
    + exists s. rewrite drop_ge by lia. cbn. by rewrite app_nil_r.
  - cbn. destruct (_event_handlers (self s) !! i) as [h|] eqn:E.
    + assert (Hin : h ∈ l) by (rewrite <- Hl; by eapply list_elem_of_lookup_2).
      pose proof (Hst h (self s) Hin Hl) as Hk.
      destruct (run_handler h event (self s)) as [o p'] eqn:Er. cbn in Hk.
      set (s1 := mkPState p' (clock_reads s) (stdout s) (delivered s ++ [(h, event)])).
      destruct (IH (S i) s1 Hk Hst ltac:(lia)) as (s' & He & H1 & H2 & H3 & H4).
      exists s'. split; [by destruct o|]. repeat split; try done.
      rewrite H2. cbn. rewrite <- Hl. rewrite (drop_S _ _ _ E). cbn.
      by rewrite <- app_assoc.
    + exists s. apply lookup_ge_None in E. rewrite drop_ge by (rewrite <- Hl; lia).
      cbn. by rewrite app_nil_r.
Qed.

Lemma emit_loop_frame {T} (f : BasePlugin -> T) fuel i event s s' :
  keeps run_handler f →
  emit_loop run_handler fuel i event s = Some s' →
  f (self s') = f (self s) ∧ clock_reads s' = clock_reads s ∧ stdout s' = stdout s.
Proof.
  intros Hk. revert i s. induction fuel as [|fuel IH]; intros i s; cbn.
  - destruct (_event_handlers (self s) !! i); [done|]. by intros [= <-].
  - destruct (_event_handlers (self s) !! i) as [h|]; [|by intros [= <-]].
    pose proof (Hk h event (self s)) as Hh.
    destruct (run_handler h event (self s)) as [o p']. cbn in Hh.
    intros He. assert (emit_loop run_handler fuel (S i) event
      (mkPState p' (clock_reads s) (stdout s) (delivered s ++ [(h, event)])) = Some s')
      as He' by (by destruct o).
    apply IH in He'. cbn in He'. by rewrite <- Hh.
Qed.

(** C3, as amended.  [_emit_event] walks the live subscriber list by
    index.  When the subscribers registered at the start do not change
    the list while they run, the emission terminates, invokes exactly
    those subscribers, each once and in registration order, and leaves
    the list as it was. *)
Theorem emit_event_in_registration_order event_type data fuel s :
  stable_on run_handler (_event_handlers (self s)) (make_event external s event_type data) →
  length (_event_handlers (self s)) ≤ fuel →
  ∃ s', _emit_event run_handler external event_type data fuel s = Some (Return tt, s')
    ∧ delivered s' =
        delivered s ++ deliveries (_event_handlers (self s))
                         (make_event external s event_type data)
    ∧ _event_handlers (self s') = _event_handlers (self s).
Proof.
  intros Hst Hlen. unfold _emit_event.
  destruct (emit_loop_stable _ fuel 0 _ s eq_refl Hst ltac:(lia))
    as (s' & -> & H1 & H2 & _).
  exists s'. by rewrite H2, drop_0.
Qed.

Lemma emit_event_Some event_type data fuel s o s' :
  _emit_event run_handler external event_type data fuel s = Some (o, s') →
  o = Return tt.
Proof.
  unfold _emit_event. destruct (emit_loop _ _ _ _ _); [|done]. by intros [= <- _].
Qed.

(** Without a bound on the subscriber invocations: whenever the
    emission returns, the components no subscriber changes are as
    before, and so are the clock and the output. *)
Lemma emit_event_frame {T} (f : BasePlugin -> T) event_type data fuel s o s' :
  keeps run_handler f →
  _emit_event run_handler external event_type data fuel s = Some (o, s') →
  o = Return tt ∧ f (self s') = f (self s)
    ∧ clock_reads s' = clock_reads s ∧ stdout s' = stdout s.
Proof.
  intros Hk. unfold _emit_event.
  destruct (emit_loop _ _ _ _ _) as [s1|] eqn:He; [|done].
  intros [= <- <-]. split; [done|]. by eapply emit_loop_frame.
Qed.

End EventBus.

Lemma datetime_utcnow_Some utcnow fuel s o s' :
  datetime_utcnow utcnow fuel s = Some (o, s') →
  o = Return (utcnow (clock_reads s))
  ∧ s' = mkPState (self s) (S (clock_reads s)) (stdout s) (delivered s).
Proof. by intros [= <- <-]. Qed.

(** Decompose the hypotheses that say a composite run has finished. *)
Ltac run_inv :=
  repeat match goal with
  | H : Py.bind _ _ _ _ = Some _ |- _ =>
      apply bind_Some in H as [(? & ? & ? & H) | (? & H & ?)]
  | H : try_except _ _ _ _ = Some _ |- _ =>
      apply try_except_Some in H as [(? & H & ?) | (? & ? & ? & H)]
  | H : ret _ _ _ = Some _ |- _ => apply ret_Some in H as [? ?]
  | H : raise _ _ _ = Some _ |- _ => apply raise_Some in H as [? ?]
  | H : get _ _ = Some _ |- _ => apply get_Some in H as [? ?]
  | H : modify _ _ _ = Some _ |- _ => apply modify_Some in H as [? ?]
  | H : of_outcome _ _ _ = Some _ |- _ => apply of_outcome_Some in H as [? ?]
  | H : datetime_utcnow _ _ _ = Some _ |- _ => apply datetime_utcnow_Some in H as [? ?]
  | H : _emit_event _ _ _ _ _ _ = Some (Raise _, _) |- _ =>
      apply emit_event_Some in H; discriminate H
  | H : Return _ = Return _ |- _ => injection H as H
  | H : Return _ = Raise _ |- _ => discriminate H
  | H : Raise _ = Return _ |- _ => discriminate H
  | H : Raise _ = Raise _ |- _ => injection H as H
  | _ => progress subst
  end.

(** Record what an emission that has returned left unchanged. *)
Ltac emit_frames Hd Hs :=
  repeat match goal with
  | H : _emit_event _ _ _ _ _ _ = Some _ |- _ =>
      let F1 := fresh "Fd" in
      let F2 := fresh "Fs" in
      let F3 := fresh "Fc" in
      pose proof (emit_event_frame _ _ devices _ _ _ _ _ _ Hd H) as (_ & F1 & F3 & _);
      pose proof (emit_event_frame _ _ device_states _ _ _ _ _ _ Hs H) as (_ & F2 & _);
      clear H
  end.

(** ** The device registry *)

Section Registry.

Context (run_handler : Handler -> Event.t -> BasePlugin -> outcome unit * BasePlugin)
        (utcnow : nat -> Timestamp)
        (external : nat -> ExternalClass).

Local Abbreviation emit := (_emit_event run_handler external).

Lemma keeps_stable_on l event :
  keeps run_handler _event_handlers → stable_on run_handler l event.
Proof. intros Hk h p _ <-. apply Hk. Qed.

(** An emission among quiet subscribers: it returns, has invoked every
    subscriber in order, and the registry is as before. *)
Lemma emit_event_quiet event_type data fuel s :
  quiet_handlers run_handler →
  length (_event_handlers (self s)) ≤ fuel →
  ∃ s', emit event_type data fuel s = Some (Return tt, s')
    ∧ devices (self s') = devices (self s)
    ∧ device_states (self s') = device_states (self s)
    ∧ _event_handlers (self s') = _event_handlers (self s)
    ∧ clock_reads s' = clock_reads s
    ∧ stdout s' = stdout s
    ∧ delivered s' =
        delivered s ++ deliveries (_event_handlers (self s))
                         (make_event external s event_type data).
Proof.
  intros (Hd & Hs & Hh) Hlen. unfold _emit_event.
  destruct (emit_loop_stable run_handler _ fuel 0 (make_event external s event_type data)
              s eq_refl (keeps_stable_on _ _ Hh) ltac:(lia))
    as (s' & He & H1 & H2 & H3 & H4).
  rewrite He. exists s'.
  destruct (emit_loop_frame run_handler devices _ _ _ _ _ Hd He) as (? & _).
  destruct (emit_loop_frame run_handler device_states _ _ _ _ _ Hs He) as (? & _).
  rewrite drop_0 in H2. done.
Qed.

Lemma add_device_frame device fuel s o s' :
  keeps run_handler devices → keeps run_handler device_states →
  add_device run_handler external device fuel s = Some (o, s') →
  o = Return true
    ∧ devices (self s') = <[DeviceInfo.id device := device]> (devices (self s))
    ∧ device_states (self s') = device_states (self s)
    ∧ clock_reads s' = clock_reads s.
Proof.
  intros Hd Hs Hrun. unfold add_device in Hrun. run_inv; cbn in *.
  emit_frames Hd Hs. by rewrite Fd, Fs, Fc.
Qed.

(** C2, as amended.  [add_device] stores the descriptor under its id
    whether or not a device with that id is registered, replacing the
    one that was there, leaves the recorded states alone, delivers
    [device_added] to every subscriber and returns true in both cases. *)
Theorem add_device_always_stores device fuel s :
  quiet_handlers run_handler →
  length (_event_handlers (self s)) ≤ fuel →
  ∃ s', add_device run_handler external device fuel s = Some (Return true, s')
    ∧ devices (self s') = <[DeviceInfo.id device := device]> (devices (self s))
    ∧ device_states (self s') = device_states (self s)
    ∧ delivered s' =
        delivered s ++ deliveries (_event_handlers (self s))
          (make_event external s "device_added" (device_added_data device)).
Proof.
  intros Hq Hlen. unfold add_device, try_except, bind, modify, ret. cbn.
  set (s0 := set_self _ s).
  destruct (emit_event_quiet "device_added" (device_added_data device) fuel s0 Hq Hlen)
    as (s' & -> & H1 & H2 & _ & _ & _ & H3).
  by exists s'.
Qed.

Lemma remove_device_frame device_id fuel s o s' :
  keeps run_handler devices → keeps run_handler device_states →
  remove_device run_handler external device_id fuel s = Some (o, s') →
  (devices (self s) !! device_id = None ∧ o = Return false ∧ s' = s)
  ∨ (is_Some (devices (self s) !! device_id) ∧ o = Return true
     ∧ devices (self s') = delete device_id (devices (self s))
     ∧ device_states (self s') = delete device_id (device_states (self s))
     ∧ clock_reads s' = clock_reads s).
Proof.
  intros Hd Hs Hrun. unfold remove_device in Hrun. run_inv; cbn in *.
  - case_bool_decide as Hin; run_inv.
    + right. split; [done|]. split; [done|]. emit_frames Hd Hs.
      case_bool_decide as Hst; run_inv; cbn in *.
      * by rewrite Fd, Fs, Fc.
      * rewrite Fd, Fs, Fc. repeat split; try done.
        symmetry. apply delete_id. by apply eq_None_not_Some.
    + left. by apply eq_None_not_Some in Hin.
  - exfalso. case_bool_decide as Hin; run_inv. case_bool_decide; run_inv.
Qed.

Lemma update_device_state_unknown device_id properties fuel s :
  devices (self s) !! device_id = None →
  update_device_state run_handler utcnow external device_id properties fuel s
  = Some (Return false, s).
Proof.
  intros Hno. unfold update_device_state, try_except, bind, get, ret. cbn.
  rewrite bool_decide_eq_false_2; [done|]. rewrite Hno. by intros [? ?].
Qed.

Lemma update_device_state_frame device_id properties fuel s o s' :
  keeps run_handler devices → keeps run_handler device_states →
  is_Some (devices (self s) !! device_id) →
  update_device_state run_handler utcnow external device_id properties fuel s
  = Some (o, s') →
  o = Return true
    ∧ devices (self s') = devices (self s)
    ∧ device_states (self s') =
        <[device_id := DeviceState.Build device_id properties
                         (utcnow (clock_reads s)) true]> (device_states (self s))
    ∧ clock_reads s' = S (clock_reads s).
Proof.
  intros Hd Hs Hin Hrun. unfold update_device_state in Hrun. run_inv; cbn in *.
  - rewrite bool_decide_eq_true_2 in * by done. cbn in *.
    run_inv. emit_frames Hd Hs. by rewrite Fd, Fs, Fc.
  - exfalso. rewrite bool_decide_eq_true_2 in * by done. cbn in *. run_inv.
Qed.

Lemma update_device_state_known device_id properties fuel s :
  quiet_handlers run_handler →
  length (_event_handlers (self s)) ≤ fuel →
  is_Some (devices (self s) !! device_id) →
  let state := DeviceState.Build device_id properties (utcnow (clock_reads s)) true in
  ∃ s', update_device_state run_handler utcnow external device_id properties fuel s
        = Some (Return true, s')
    ∧ device_states (self s') = <[device_id := state]> (device_states (self s))
    ∧ devices (self s') = devices (self s)
    ∧ delivered s' =
        delivered s ++ deliveries (_event_handlers (self s))
          (make_event external s "state_changed" (state_changed_data state)).
Proof.
  intros Hq Hlen Hin state.
  unfold update_device_state, try_except, bind, get, ret, modify, datetime_utcnow. cbn.
  rewrite bool_decide_eq_true_2 by done. cbn. fold state.
  set (s0 := set_self _ _).
  destruct (emit_event_quiet "state_changed" (state_changed_data state) fuel s0 Hq Hlen)
    as (s' & -> & H1 & H2 & _ & _ & _ & H3).
  by exists s'.
Qed.

(** C6.  [update_device_state] on an id that is not registered returns
    false and leaves everything as it was.  On a registered id it
    stores a state carrying the clock reading taken at the call, the
    supplied property map as it is and the online flag, delivers
    [state_changed] with that state to every subscriber and returns
    true; the other recorded states and the registered devices are
    untouched. *)
Theorem update_device_state_replaces device_id properties fuel s :
  (devices (self s) !! device_id = None →
   update_device_state run_handler utcnow external device_id properties fuel s
   = Some (Return false, s))
  ∧ (quiet_handlers run_handler →
     length (_event_handlers (self s)) ≤ fuel →
     is_Some (devices (self s) !! device_id) →
     let state := DeviceState.Build device_id properties (utcnow (clock_reads s)) true in
     ∃ s', update_device_state run_handler utcnow external device_id properties fuel s
           = Some (Return true, s')
       ∧ device_states (self s') = <[device_id := state]> (device_states (self s))
       ∧ devices (self s') = devices (self s)
       ∧ delivered s' =
           delivered s ++ deliveries (_event_handlers (self s))
             (make_event external s "state_changed" (state_changed_data state))).
Proof.
  split; [apply update_device_state_unknown|apply update_device_state_known].
Qed.

End Registry.

(** ** The registry invariant *)

Section Invariant.

Context (run_handler : Handler -> Event.t -> BasePlugin -> outcome unit * BasePlugin)
        (utcnow : nat -> Timestamp)
        (external : nat -> ExternalClass).

Hypothesis Hd : keeps run_handler devices.
Hypothesis Hs : keeps run_handler device_states.

Local Abbreviation ok := (registry_ok utcnow).
Local Abbreviation pres := (preserves utcnow).

Lemma registry_ok_frame s s' :
  devices (self s') = devices (self s) →
  device_states (self s') = device_states (self s) →
  clock_reads s ≤ clock_reads s' →
  ok s → ok s'.
Proof.
  intros E1 E2 Hc Hok id st Hst. rewrite E2 in Hst.
  destruct (Hok id st Hst) as (? & ? & ? & j & ? & ?). rewrite E1.
  repeat split; try done. exists j. split; [lia|done].
Qed.

Lemma preserves_ret {A} (a : A) : pres (ret a).
Proof. intros fuel s o s' Hok Hrun. run_inv. done. Qed.

Lemma preserves_raise {A} e : pres (@raise PState A e).
Proof. intros fuel s o s' Hok Hrun. run_inv. done. Qed.

Lemma preserves_of_outcome {A} (r : outcome A) : pres (of_outcome r).
Proof. intros fuel s o s' Hok Hrun. run_inv. done. Qed.

Lemma preserves_get : pres get.
Proof. intros fuel s o s' Hok Hrun. run_inv. done. Qed.

Lemma preserves_bind {A B} (m : M PState A) (k : A -> M PState B) :
  pres m → (∀ a, pres (k a)) → pres (Py.bind m k).
Proof.
  intros Hm Hk fuel s o s' Hok Hrun. run_inv.
  - eapply Hk; [|done]. by eapply Hm.
  - by eapply Hm.
Qed.

Lemma preserves_try_except {A} (body : M PState A) (handler : exn -> M PState A) :
  pres body → (∀ e, pres (handler e)) → pres (try_except body handler).
Proof.
  intros Hm Hk fuel s o s' Hok Hrun. run_inv.
  - by eapply Hm.
  - eapply Hk; [|done]. by eapply Hm.
Qed.

Lemma preserves_emit event_type data : pres (_emit_event run_handler external event_type data).
Proof.
  intros fuel s o s' Hok Hrun. emit_frames Hd Hs.
  eapply registry_ok_frame; [done|done| |done]. lia.
Qed.

Lemma preserves_add_device device : pres (add_device run_handler external device).
Proof.
  intros fuel s o s' Hok Hrun.
  apply add_device_frame in Hrun as (_ & E1 & E2 & E3); [|done|done].
  intros id st Hst. rewrite E2 in Hst.
  destruct (Hok id st Hst) as (? & ? & ? & j & ? & ?). rewrite E1, E3.
  repeat split; try done; [|by exists j].
  rewrite lookup_insert. by case_decide.
Qed.

Lemma preserves_remove_device device_id : pres (remove_device run_handler external device_id).
Proof.
  intros fuel s o s' Hok Hrun.
  apply remove_device_frame in Hrun as [(_ & _ & ->)|(_ & _ & E1 & E2 & E3)]; [done| |done|done].
  intros id st Hst. rewrite E2 in Hst.
  apply lookup_delete_Some in Hst as [Hne Hst].
  destruct (Hok id st Hst) as (? & ? & ? & j & ? & ?). rewrite E1, E3.
  repeat split; try done; [|by exists j].
  by rewrite lookup_delete_ne.
Qed.

Lemma preserves_update_device_state device_id properties :
  pres (update_device_state run_handler utcnow external device_id properties).
Proof.
  intros fuel s o s' Hok Hrun.
  destruct (devices (self s) !! device_id) as [dev|] eqn:Hin.
  - apply update_device_state_frame in Hrun as (_ & E1 & E2 & E3);
      [|done|done|by rewrite Hin].
    intros id st Hst. rewrite E2 in Hst. rewrite E1, E3.
    apply lookup_insert_Some in Hst as [[<- <-]|[Hne Hst]].
    + cbn. rewrite Hin. repeat split; try done. exists (clock_reads s). split; [lia|done].
    + destruct (Hok id st Hst) as (? & ? & ? & j & ? & ?).
      repeat split; try done. exists j. split; [lia|done].
  - rewrite update_device_state_unknown in Hrun by done. by injection Hrun as <- <-.
Qed.

Lemma preserves_getattr name : pres (getattr name).
Proof.
  unfold getattr. apply preserves_bind; [apply preserves_get|].
  intros s0. destruct (attrs (self s0) !! name);
    [apply preserves_ret|apply preserves_raise].
Qed.

Lemma preserves_load_global {A} globals name (v : A) : pres (load_global globals name v).
Proof.
  unfold load_global. case_bool_decide; [apply preserves_ret|apply preserves_raise].
Qed.

Lemma preserves_for_each {A} (xs : list A) (body : A -> M PState unit) :
  (∀ x, pres (body x)) → pres (for_each xs body).
Proof.
  intros Hb. induction xs as [|x xs IH]; cbn; [apply preserves_ret|].
  apply preserves_bind; [apply Hb|by intros _].
Qed.

End Invariant.

(** Discharge [preserves] goals by following the structure of the code. *)
Ltac solve_pres :=
  repeat (intros; first
    [ apply preserves_ret
    | apply preserves_raise
    | apply preserves_of_outcome
    | apply preserves_get
    | apply preserves_getattr
    | apply preserves_load_global
    | by apply preserves_emit
    | by apply preserves_add_device
    | by apply preserves_remove_device
    | by apply preserves_update_device_state
    | apply preserves_bind
    | apply preserves_try_except
    | apply preserves_for_each
    | match goal with
      | |- preserves _ (if ?b then _ else _) => destruct b
      end ]).

Section Reachable.

Context (run_handler : Handler -> Event.t -> BasePlugin -> outcome unit * BasePlugin)
        (utcnow : nat -> Timestamp)
        (external : nat -> ExternalClass).

Hypothesis Hd : keeps run_handler devices.
Hypothesis Hs : keeps run_handler device_states.

Local Abbreviation ok := (registry_ok utcnow).
Local Abbreviation pres := (preserves utcnow).

Lemma preserves_philips_discover_devices :
  pres (philips_discover_devices run_handler utcnow external).
Proof. unfold philips_discover_devices. solve_pres. Qed.

Lemma preserves_xiaomi_discover_devices :
  pres (xiaomi_discover_devices run_handler utcnow external).
Proof. unfold xiaomi_discover_devices. solve_pres. Qed.

Lemma preserves_philips_execute_device_action device_id action parameters :
  pres (philips_execute_device_action run_handler utcnow external
          device_id action parameters).
Proof. unfold philips_execute_device_action. solve_pres. Qed.

Lemma preserves_xiaomi_execute_device_action device_id action parameters :
  pres (xiaomi_execute_device_action run_handler utcnow external
          device_id action parameters).
Proof. unfold xiaomi_execute_device_action, asyncio_sleep. solve_pres. Qed.

Lemma execute_device_action_ok device_id action parameters fuel s o s' :
  builtin (klass (self s)) = true →
  ok s →
  _execute_device_action run_handler utcnow external device_id action parameters fuel s
  = Some (o, s') →
  ok s'.
Proof.
  intros Hpk Hok Hrun. unfold _execute_device_action in Hrun.
  apply bind_Some in Hrun as [(a & s1 & Hg & Hrun)|(? & Hg & _)];
    [|by apply get_Some in Hg as [? _]].
  apply get_Some in Hg as [[= ->] ->].
  destruct (klass (self s)); [| |done].
  - by eapply preserves_philips_execute_device_action.
  - by eapply preserves_xiaomi_execute_device_action.
Qed.

Lemma discover_devices_ok fuel s o s' :
  builtin (klass (self s)) = true →
  ok s →
  discover_devices run_handler utcnow external fuel s = Some (o, s') →
  ok s'.
Proof.
  intros Hpk Hok Hrun. unfold discover_devices in Hrun.
  apply bind_Some in Hrun as [(a & s1 & Hg & Hrun)|(? & Hg & _)];
    [|by apply get_Some in Hg as [? _]].
  apply get_Some in Hg as [[= ->] ->].
  destruct (klass (self s)); [| |done].
  - by eapply preserves_philips_discover_devices.
  - by eapply preserves_xiaomi_discover_devices.
Qed.

Lemma run_op_ok op fuel s o s' :
  in_package (klass (self s)) op = true →
  ok s → run_op run_handler utcnow external op fuel s = Some (o, s') → ok s'.
Proof.
  intros Hpk Hok Hrun. destruct op; cbn in Hrun.
  - revert Hrun. apply preserves_bind; [solve_pres..|done].
  - revert Hrun. apply preserves_bind; [solve_pres..|done].
  - revert Hrun. apply preserves_bind; [solve_pres..|done].
  - unfold execute_action in Hrun. run_inv; [|by destruct (negb _); run_inv].
    destruct (negb _); run_inv; try done.
    all: repeat match goal with
      | H : _execute_device_action _ _ _ _ _ _ _ _ = Some _ |- _ =>
          eapply execute_device_action_ok in H; [|done|done]
      | H : _emit_event _ _ _ _ _ _ = Some _ |- _ =>
          eapply preserves_emit in H; [|done|done|done]
      end; done.
  - run_inv; by eapply discover_devices_ok.
Qed.

(** Every reachable state satisfies the registry invariant. *)
Lemma reach_ok ops s : reach run_handler utcnow external ops s → ok s.
Proof.
  induction 1 as [s E1 E2|ops s op fuel o s' _ IH Hpk Hrun|ops s s' _ IH E1 E2 Hc].
  - intros id st Hst. by rewrite E2 in Hst.
  - by eapply run_op_ok.
  - by eapply registry_ok_frame.
Qed.

(** The state [run_op] ends in is the one the operation ends in. *)
Lemma run_op_inv op fuel s o s' :
  run_op run_handler utcnow external op fuel s = Some (o, s') →
  match op with
  | op_add_device device =>
      ∃ r, add_device run_handler external device fuel s = Some (r, s')
  | op_remove_device device_id =>
      ∃ r, remove_device run_handler external device_id fuel s = Some (r, s')
  | op_update_device_state device_id properties =>
      ∃ r, update_device_state run_handler utcnow external device_id properties fuel s
           = Some (r, s')
  | op_execute_action device_id action parameters =>
      ∃ r, execute_action run_handler utcnow external device_id action parameters fuel s
           = Some (r, s')
  | op_discover_devices =>
      ∃ r, discover_devices run_handler utcnow external fuel s = Some (r, s')
  end.
Proof.
  intros Hrun. destruct op; cbn in Hrun;
    apply bind_Some in Hrun as [(a & s1 & Hrun & Hr)|(e & Hrun & _)];
    try (apply ret_Some in Hr as [_ ->]); eauto.
Qed.

(** No recorded state for [d] as long as no operation of the history
    may have called [update_device_state] on it. *)
Lemma reach_no_update ops s d :
  reach run_handler utcnow external ops s →
  Forall (fun op => updates d op = false) ops →
  device_states (self s) !! d = None.
Proof.
  induction 1 as [s E1 E2|ops s op fuel o s' _ IH Hpk Hrun|ops s s' _ IH E1 E2 Hc];
    intros Hall.
  - by rewrite E2.
  - apply Forall_app in Hall as [Hall Hop]. rewrite Forall_singleton in Hop.
    specialize (IH Hall). apply run_op_inv in Hrun.
    destruct op as [device|device_id|device_id properties| |]; try done;
      destruct Hrun as [r Hrun].
    + apply add_device_frame in Hrun as (_ & _ & E & _); [|done|done]. by rewrite E.
    + apply remove_device_frame in Hrun as [(_ & _ & E)|(_ & _ & _ & E & _)];
        [by rewrite E|..|done|done].
      rewrite E, lookup_delete. by case_decide.
    + cbn in Hop. apply bool_decide_eq_false in Hop.
      destruct (devices (self s) !! device_id) eqn:Hin.
      * apply update_device_state_frame in Hrun as (_ & _ & E & _);
          [|done|done|by rewrite Hin].
        by rewrite E, lookup_insert_ne.
      * rewrite update_device_state_unknown in Hrun by done. by injection Hrun as _ <-.
  - by rewrite E2, IH.
Qed.

Lemma filter_all {A} (P : A -> Prop) `{∀ x, Decision (P x)} (l : list A) :
  Forall P l → filter P l = l.
Proof.
  induction 1 as [|x l Hx _ IH]; [done|]. by rewrite filter_cons_True, IH.
Qed.

Lemma remove_device_total device_id fuel s :
  quiet_handlers run_handler →
  length (_event_handlers (self s)) ≤ fuel →
  ∃ r s', remove_device run_handler external device_id fuel s = Some (Return r, s').
Proof.
  intros Hq Hlen. unfold remove_device, try_except, Py.bind, get, modify, ret. cbn.
  case_bool_decide; [|eauto]. case_bool_decide; cbn.
  - set (s0 := set_self _ _).
    destruct (emit_event_quiet run_handler external "device_removed"
                (device_removed_data device_id) fuel s0 Hq Hlen) as (s' & -> & _).
    eauto.
  - set (s0 := set_self _ _).
    destruct (emit_event_quiet run_handler external "device_removed"
                (device_removed_data device_id) fuel s0 Hq Hlen) as (s' & -> & _).
    eauto.
Qed.

(** C7.  In a registry that started empty: a device has no recorded
    state as long as nothing has called [update_device_state] on its
    id; once [update_device_state d p] has run on a registered [d],
    [get_device_state d] is a state with exactly the properties [p]
    and a timestamp not before the one it replaces; and after
    [remove_device d], whether or not [d] was registered,
    [get_device_state d] is absent. *)
Theorem device_state_lifecycle ops s d :
  keeps run_handler _event_handlers →
  monotone_clock utcnow →
  reach run_handler utcnow external ops s →
  (Forall (fun op => updates d op = false) ops →
   ∀ fuel, get_device_state d fuel s = Some (Return None, s))
  ∧ (∀ fuel p,
       length (_event_handlers (self s)) ≤ fuel →
       is_Some (devices (self s) !! d) →
       ∃ s1 st,
         update_device_state run_handler utcnow external d p fuel s
         = Some (Return true, s1)
         ∧ get_device_state d fuel s1 = Some (Return (Some st), s1)
         ∧ DeviceState.properties st = p
         ∧ ∀ st0, device_states (self s) !! d = Some st0 →
             (DeviceState.last_updated st0 <= DeviceState.last_updated st)%N)
  ∧ (∀ fuel,
       length (_event_handlers (self s)) ≤ fuel →
       ∃ r s1,
         remove_device run_handler external d fuel s = Some (Return r, s1)
         ∧ get_device_state d fuel s1 = Some (Return None, s1)).
Proof.
  intros Hh Hmono Hreach. pose proof (reach_ok _ _ Hreach) as Hok.
  assert (Hq : quiet_handlers run_handler) by done.
  split; [|split].
  - intros Hall fuel. unfold get_device_state, Py.bind, get, ret.
    by rewrite (reach_no_update _ _ _ Hreach Hall).
  - intros fuel p Hlen Hin.
    destruct (update_device_state_known run_handler utcnow external d p fuel s Hq Hlen Hin)
      as (s1 & Hrun & E & _).
    eexists s1, _. split; [done|].
    unfold get_device_state, Py.bind, get, ret. rewrite E, lookup_insert_eq.
    split; [done|]. split; [done|].
    intros st0 Hst0. destruct (Hok d st0 Hst0) as (_ & _ & _ & j & Hj & ->).
    cbn. apply Hmono. lia.
  - intros fuel Hlen.
    destruct (remove_device_total d fuel s Hq Hlen) as (r & s1 & Hrun).
    exists r, s1. split; [done|].
    unfold get_device_state, Py.bind, get, ret.
    apply remove_device_frame in Hrun as [(Hno & _ & ->)|(_ & _ & _ & E & _)];
      [|by rewrite E, lookup_delete_eq|done|done].
    destruct (device_states (self s) !! d) as [st|] eqn:Hst; [|done].
    destruct (Hok d st Hst) as ([? Hin] & _). by rewrite Hno in Hin.
Qed.

(** C10.  Every state recorded in a reachable registry is marked
    online, whatever sequence of registry operations, actions and
    discoveries produced it, and [health_check] reports as online
    devices the number of devices that have a recorded state. *)
Theorem stored_states_are_online ops s :
  reach run_handler utcnow external ops s →
  (∀ id st, device_states (self s) !! id = Some st → DeviceState.online st = true)
  ∧ (∀ fuel, ∃ h,
       health_check fuel s = Some (Return h, s)
       ∧ online_devices h = size (device_states (self s))).
Proof.
  intros Hreach. pose proof (reach_ok _ _ Hreach) as Hok. split.
  - intros id st Hst. by destruct (Hok id st Hst) as (_ & _ & ? & _).
  - intros fuel. eexists. split; [reflexivity|]. cbn.
    rewrite filter_all; [by rewrite length_fmap, length_map_to_list|].
    apply Forall_fmap, Forall_forall. intros [id st] Hin.
    apply elem_of_map_to_list in Hin. cbn.
    by destruct (Hok id st Hin) as (_ & _ & ? & _).
Qed.

End Reachable.

(** ** Termination among subscribers that leave the subscriber list alone *)

Section Termination.

Context (run_handler : Handler -> Event.t -> BasePlugin -> outcome unit * BasePlugin)
        (utcnow : nat -> Timestamp)
        (external : nat -> ExternalClass).

Variable l : list Handler.
Variable fuel : nat.

Hypothesis Hh : keeps run_handler _event_handlers.
Hypothesis Hlen : length l ≤ fuel.

Local Abbreviation fin := (finishes l fuel).

Lemma finishes_ret {A} (a : A) : fin (ret a).
Proof. intros s Hl. by exists (Return a), s. Qed.

Lemma finishes_raise {A} e : fin (@raise PState A e).
Proof. intros s Hl. by exists (Raise e), s. Qed.

Lemma finishes_of_outcome {A} (r : outcome A) : fin (of_outcome r).
Proof. intros s Hl. by exists r, s. Qed.

Lemma finishes_get : fin get.
Proof. intros s Hl. by exists (Return s), s. Qed.

Lemma finishes_modify (f : PState -> PState) :
  (∀ s, _event_handlers (self (f s)) = _event_handlers (self s)) → fin (modify f).
Proof. intros Hf s Hl. exists (Return tt), (f s). by rewrite Hf. Qed.

Lemma finishes_bind {A B} (m : M PState A) (k : A -> M PState B) :
  fin m → (∀ a, fin (k a)) → fin (Py.bind m k).
Proof.
  intros Hm Hk s Hl. destruct (Hm s Hl) as ([a|e] & s1 & Hrun & Hl1).
  - destruct (Hk a s1 Hl1) as (o & s' & Hrun' & Hl').
    exists o, s'. unfold Py.bind. by rewrite Hrun.
  - exists (Raise e), s1. unfold Py.bind. by rewrite Hrun.
Qed.

Lemma finishes_try_except {A} (body : M PState A) (handler : exn -> M PState A) :
  fin body → (∀ e, fin (handler e)) → fin (try_except body handler).
Proof.
  intros Hm Hk s Hl. destruct (Hm s Hl) as ([a|e] & s1 & Hrun & Hl1).
  - exists (Return a), s1. unfold try_except. by rewrite Hrun.
  - destruct (Hk e s1 Hl1) as (o & s' & Hrun' & Hl').
    exists o, s'. unfold try_except. by rewrite Hrun.
Qed.

Lemma finishes_emit event_type data : fin (_emit_event run_handler external event_type data).
Proof.
  intros s Hl. unfold _emit_event.
  destruct (emit_loop_stable run_handler l fuel 0 (make_event external s event_type data)
              s Hl (keeps_stable_on run_handler _ _ Hh) ltac:(lia))
    as (s' & -> & Hl' & _).
  by exists (Return tt), s'.
Qed.

Lemma finishes_datetime_utcnow : fin (datetime_utcnow utcnow).
Proof. intros s Hl. by eexists _, _. Qed.

Lemma finishes_getattr name : fin (getattr name).
Proof.
  unfold getattr. apply finishes_bind; [apply finishes_get|].
  intros s0. destruct (attrs (self s0) !! name); [apply finishes_ret|apply finishes_raise].
Qed.

Lemma finishes_load_global {A} globals name (v : A) : fin (load_global globals name v).
Proof. unfold load_global. case_bool_decide; [apply finishes_ret|apply finishes_raise]. Qed.

Lemma finishes_for_each {A} (xs : list A) (body : A -> M PState unit) :
  (∀ x, fin (body x)) → fin (for_each xs body).
Proof.
  intros Hb. induction xs as [|x xs IH]; cbn; [apply finishes_ret|].
  apply finishes_bind; [apply Hb|by intros _].
Qed.

(** Discharge [finishes] goals by following the structure of the code. *)
Ltac solve_fin :=
  repeat (intros; first
    [ apply finishes_ret
    | apply finishes_raise
    | apply finishes_of_outcome
    | apply finishes_get
    | apply finishes_getattr
    | apply finishes_load_global
    | apply finishes_emit
    | apply finishes_datetime_utcnow
    | by apply finishes_modify
    | apply finishes_bind
    | apply finishes_try_except
    | apply finishes_for_each
    | match goal with
      | |- finishes _ _ (if ?b then _ else _) => destruct b
      end ]).

Lemma finishes_add_device device : fin (add_device run_handler external device).
Proof. unfold add_device. solve_fin. Qed.

Lemma finishes_remove_device device_id : fin (remove_device run_handler external device_id).
Proof. unfold remove_device. solve_fin. Qed.

Lemma finishes_update_device_state device_id properties :
  fin (update_device_state run_handler utcnow external device_id properties).
Proof. unfold update_device_state. solve_fin. Qed.

Lemma finishes_philips_discover_devices :
  fin (philips_discover_devices run_handler utcnow external).
Proof.
  unfold philips_discover_devices. solve_fin;
    first [apply finishes_add_device|apply finishes_update_device_state].
Qed.

Lemma finishes_xiaomi_discover_devices :
  fin (xiaomi_discover_devices run_handler utcnow external).
Proof.
  unfold xiaomi_discover_devices. solve_fin;
    first [apply finishes_add_device|apply finishes_update_device_state|solve_fin].
Qed.

Lemma finishes_philips_execute_device_action device_id action parameters :
  fin (philips_execute_device_action run_handler utcnow external device_id action parameters).
Proof.
  unfold philips_execute_device_action. solve_fin;
    first [apply finishes_update_device_state|solve_fin].
Qed.

Lemma finishes_xiaomi_execute_device_action device_id action parameters :
  fin (xiaomi_execute_device_action run_handler utcnow external device_id action parameters).
Proof.
  unfold xiaomi_execute_device_action, asyncio_sleep. solve_fin;
    first [apply finishes_update_device_state|solve_fin].
Qed.

End Termination.

(** ** The built-in integrations *)

(** C5, on the code as it is.  Neither example module imports
    [PluginStatus]: in [start], evaluating [PluginStatus.RUNNING] raises
    [NameError], the [except] clause catches it and evaluates
    [PluginStatus.ERROR], which raises [NameError] again, this time out
    of [start].  The status is never assigned: an instance that was
    [LOADED] is still [LOADED], neither [RUNNING] nor [ERROR]. *)
Theorem start_escapes_with_NameError fuel s external cfg c out dl :
  philips_start fuel s = Some (Raise (NameError "PluginStatus"), s)
  ∧ xiaomi_start fuel s = Some (Raise (NameError "PluginStatus"), s)
  ∧ start external fuel (mkPState (PhilipsHuePlugin_init cfg) c out dl)
    = Some (Raise (NameError "PluginStatus"),
            mkPState (PhilipsHuePlugin_init cfg) c out dl)
  ∧ start external fuel (mkPState (XiaomiSensorsPlugin_init cfg) c out dl)
    = Some (Raise (NameError "PluginStatus"),
            mkPState (XiaomiSensorsPlugin_init cfg) c out dl)
  ∧ status (PhilipsHuePlugin_init cfg) = LOADED
  ∧ status (XiaomiSensorsPlugin_init cfg) = LOADED.
Proof. repeat split; try reflexivity; by destruct s as [[] ? ? ?]. Qed.

(** ** Failures of subscribers and of integrations *)

Section Failures.

Context (run_handler : Handler -> Event.t -> BasePlugin -> outcome unit * BasePlugin)
        (utcnow : nat -> Timestamp)
        (external : nat -> ExternalClass).

(** C4, on the code as it is.  Let subscriber [k] raise on the event.
    The emission returns normally, the subscribers after [k] are
    invoked, in order, like those before it, and nothing is written to
    the output: the [except] clause is [pass], the failure is
    discarded, not logged. *)
Theorem emit_event_discards_subscriber_failure event_type data fuel s k h e :
  let event := make_event external s event_type data in
  let l := _event_handlers (self s) in
  stable_on run_handler l event →
  length l ≤ fuel →
  l !! k = Some h →
  (∀ p, fst (run_handler h event p) = Raise e) →
  ∃ s', _emit_event run_handler external event_type data fuel s = Some (Return tt, s')
    ∧ delivered s' =
        delivered s ++ deliveries (take k l) event ++ [(h, event)]
          ++ deliveries (drop (S k) l) event
    ∧ stdout s' = stdout s.
Proof.
  intros event l Hst Hlen Hk _. unfold _emit_event. fold event.
  destruct (emit_loop_stable run_handler l fuel 0 event s eq_refl Hst ltac:(lia))
    as (s' & -> & _ & H2 & _ & H4).
  exists s'. split; [done|]. split; [|done].
  rewrite H2, drop_0. unfold deliveries.
  rewrite <- (take_drop_middle l k h Hk) at 1.
  by rewrite fmap_app, fmap_cons.
Qed.

Lemma execute_action_unknown device_id action parameters fuel s :
  devices (self s) !! device_id = None →
  execute_action run_handler utcnow external device_id action parameters fuel s
  = Some (Return false, s).
Proof.
  intros Hno. unfold execute_action, Py.bind, get, ret.
  rewrite bool_decide_eq_false_2; [done|]. rewrite Hno. by intros [? ?].
Qed.

Lemma execute_action_never_raises device_id action parameters fuel s o s' :
  execute_action run_handler utcnow external device_id action parameters fuel s
  = Some (o, s') →
  raised o = false.
Proof.
  intros Hrun. unfold execute_action in Hrun. run_inv.
  destruct (negb _); run_inv; done.
Qed.

Lemma execute_device_action_dispatch device_id action parameters fuel s :
  _execute_device_action run_handler utcnow external device_id action parameters fuel s
  = match klass (self s) with
    | PhilipsHuePlugin =>
        philips_execute_device_action run_handler utcnow external
          device_id action parameters fuel s
    | XiaomiSensorsPlugin =>
        xiaomi_execute_device_action run_handler utcnow external
          device_id action parameters fuel s
    | ExternalPlugin n =>
        Some (ext_execute_device_action (external n) device_id action parameters s)
    end.
Proof. unfold _execute_device_action, Py.bind, get. by destruct (klass (self s)). Qed.

(** [execute_action] with the integration's code replaced by [act]. *)
Lemma execute_action_finishes l fuel device_id action parameters
    (act : M PState bool) s :
  keeps run_handler _event_handlers →
  length l ≤ fuel →
  finishes l fuel act →
  _event_handlers (self s) = l →
  _execute_device_action run_handler utcnow external device_id action
    (default ∅ parameters) fuel s = act fuel s →
  is_Some (execute_action run_handler utcnow external device_id action parameters fuel s).
Proof.
  intros Hh Hlen Hact Hl Heq.
  unfold execute_action, Py.bind at 1, get. destruct (negb _); [by eexists|].
  assert (finishes l fuel
            (try_except
               (result <- act ;;
                _emit_event run_handler external "action_executed"
                  (action_executed_data device_id action (default ∅ parameters) result) ;;;
                ret result)
               (fun e =>
                _emit_event run_handler external "error" (error_data (exn_msg e)) ;;;
                ret false))) as Hfin.
  { apply finishes_try_except; [apply finishes_bind; [done|]|]; intros;
      (apply finishes_bind; [by apply finishes_emit|intros; apply finishes_ret]). }
  destruct (Hfin s Hl) as (o & s' & Hrun & _). exists (o, s').
  unfold try_except, Py.bind at 1 in Hrun. unfold try_except, Py.bind at 1.
  by rewrite Heq.
Qed.

(** [execute_action] returns, with a boolean, once the bound on the
    subscriber invocations is large enough. *)
Lemma execute_action_returns device_id action parameters s :
  keeps run_handler _event_handlers →
  ∃ n, ∀ fuel, n ≤ fuel →
    ∃ b s', execute_action run_handler utcnow external device_id action parameters fuel s
            = Some (Return b, s').
Proof.
  intros Hh.
  assert (∃ n, ∀ fuel, n ≤ fuel →
            is_Some (execute_action run_handler utcnow external device_id action
                       parameters fuel s)) as [n Hn].
  { destruct (klass (self s)) as [| |k] eqn:Hk.
    - exists (length (_event_handlers (self s))). intros fuel Hlen.
      eapply execute_action_finishes; [done|exact Hlen| |done|].
      + by apply finishes_philips_execute_device_action.
      + by rewrite execute_device_action_dispatch, Hk.
    - exists (length (_event_handlers (self s))). intros fuel Hlen.
      eapply execute_action_finishes; [done|exact Hlen| |done|].
      + by apply finishes_xiaomi_execute_device_action.
      + by rewrite execute_device_action_dispatch, Hk.
    - destruct (ext_execute_device_action (external k) device_id action
                  (default ∅ parameters) s) as [o1 s1] eqn:Hext.
      exists (length (_event_handlers (self s1))). intros fuel Hlen.
      unfold execute_action, Py.bind at 1, get. destruct (negb _); [by eexists|].
      unfold try_except, Py.bind at 1.
      rewrite execute_device_action_dispatch, Hk, Hext.
      destruct o1 as [r|e].
      + destruct (finishes_emit run_handler external _ fuel Hh Hlen "action_executed"
                    (action_executed_data device_id action (default ∅ parameters) r)
                    s1 eq_refl) as (o & s2 & Hrun & _).
        pose proof (emit_event_Some _ _ _ _ _ _ _ _ Hrun) as ->.
        unfold Py.bind. rewrite Hrun. by eexists.
      + destruct (finishes_emit run_handler external _ fuel Hh Hlen "error"
                    (error_data (exn_msg e)) s1 eq_refl) as (o & s2 & Hrun & _).
        pose proof (emit_event_Some _ _ _ _ _ _ _ _ Hrun) as ->.
        unfold Py.bind. rewrite Hrun. by eexists. }
  exists n. intros fuel Hfuel. destruct (Hn fuel Hfuel) as [[o s'] Hrun].
  pose proof (execute_action_never_raises _ _ _ _ _ _ _ Hrun) as Hr.
  destruct o as [b|e]; [|done]. by exists b, s'.
Qed.

(** C1, as amended.  [execute_action] returns a boolean and never
    raises: on an id that is not registered it returns false and does
    nothing else, and a failure raised by the integration's
    [_execute_device_action] is caught and turned into an [error] event
    carrying its message, followed by the result false.  [stop] and
    [discover_devices] of the built-in integrations return without
    raising too, but emit no event for a failure, and a failed
    discovery yields the empty list.  [initialize] returns false,
    without raising, touching the status or emitting anything, when the
    bridge (gateway) address or the user name (token) is empty. *)
Theorem contract_operations_contain_failures device_id action parameters fuel s :
  (∀ o s',
     execute_action run_handler utcnow external device_id action parameters fuel s
     = Some (o, s') → raised o = false)
  ∧ (keeps run_handler _event_handlers →
     ∃ n, ∀ fuel', n ≤ fuel' →
       ∃ b s', execute_action run_handler utcnow external device_id action parameters
                 fuel' s = Some (Return b, s'))
  ∧ (devices (self s) !! device_id = None →
     execute_action run_handler utcnow external device_id action parameters fuel s
     = Some (Return false, s))
  ∧ (∀ e s1,
       is_Some (devices (self s) !! device_id) →
       _execute_device_action run_handler utcnow external device_id action
         (default ∅ parameters) fuel s = Some (Raise e, s1) →
       execute_action run_handler utcnow external device_id action parameters fuel s
       = (_emit_event run_handler external "error" (error_data (exn_msg e)) ;;;
          ret false) fuel s1)
  ∧ (∃ b s', philips_stop fuel s = Some (Return b, s') ∧ delivered s' = delivered s)
  ∧ (∃ b s', xiaomi_stop fuel s = Some (Return b, s') ∧ delivered s' = delivered s)
  ∧ (keeps run_handler _event_handlers →
     length (_event_handlers (self s)) ≤ fuel →
     ∃ found s',
       philips_discover_devices run_handler utcnow external fuel s
       = Some (Return found, s'))
  ∧ (keeps run_handler _event_handlers →
     length (_event_handlers (self s)) ≤ fuel →
     ∃ found s',
       xiaomi_discover_devices run_handler utcnow external fuel s
       = Some (Return found, s'))
  ∧ (attrs (self s) !! "bridge_ip" = None →
     philips_discover_devices run_handler utcnow external fuel s = Some (Return [], s))
  ∧ (∀ bridge_ip username,
       attrs (self s) !! "bridge_ip" = Some bridge_ip →
       attrs (self s) !! "username" = Some username →
       truthy bridge_ip && truthy username = false →
       philips_initialize fuel s = Some (Return false, s))
  ∧ (∀ gateway_ip gateway_token,
       attrs (self s) !! "gateway_ip" = Some gateway_ip →
       attrs (self s) !! "gateway_token" = Some gateway_token →
       truthy gateway_ip && truthy gateway_token = false →
       xiaomi_initialize fuel s = Some (Return false, s)).
Proof.
  split; [apply execute_action_never_raises|].
  split; [apply execute_action_returns|].
  split; [apply execute_action_unknown|].
  split.
  { intros e s1 Hin Hrun. unfold execute_action, Py.bind at 1, get.
    rewrite bool_decide_eq_true_2 by done. cbn.
    unfold try_except, Py.bind at 1. by rewrite Hrun. }
  split; [by exists false, s|].
  split; [by exists false, s|].
  split.
  { intros Hh Hlen.
    destruct (finishes_philips_discover_devices run_handler utcnow external _ fuel
                Hh Hlen s eq_refl) as (o & s' & Hrun & _).
    destruct o as [found|e]; [by eauto|].
    unfold philips_discover_devices in Hrun. by run_inv. }
  split.
  { intros Hh Hlen.
    destruct (finishes_xiaomi_discover_devices run_handler utcnow external _ fuel
                Hh Hlen s eq_refl) as (o & s' & Hrun & _).
    destruct o as [found|e]; [by eauto|].
    unfold xiaomi_discover_devices in Hrun. by run_inv. }
  split.
  { intros Hno. unfold philips_discover_devices, getattr, try_except, Py.bind, get.
    lazy beta iota. by rewrite Hno. }
  split.
  - intros b u Hb Hu Hfalse.
    unfold philips_initialize, asyncio_sleep, getattr, try_except, Py.bind, get, ret.
    lazy beta iota. rewrite Hb. lazy beta iota. rewrite Hu.
    apply andb_false_iff in Hfalse as [-> | ->]; cbn; [done|].
    by rewrite orb_true_r.
  - intros b u Hb Hu Hfalse.
    unfold xiaomi_initialize, asyncio_sleep, getattr, try_except, Py.bind, get, ret.
    lazy beta iota. rewrite Hb. lazy beta iota. rewrite Hu.
    apply andb_false_iff in Hfalse as [-> | ->]; cbn; [done|].
    by rewrite orb_true_r.
Qed.

End Failures.

(** ** The plugin manager *)

Lemma print_Some msg fuel ms o ms' :
  print msg fuel ms = Some (o, ms') →
  o = Return tt
  ∧ ms' = mkMState (manager ms) (m_clock_reads ms) (m_stdout ms ++ [msg]) (m_delivered ms).
Proof. by intros [= <- <-]. Qed.

Lemma call_local_Some {A} plugin (m : M PState A) fuel ms o ms' :
  call_local plugin m fuel ms = Some (o, ms') →
  ∃ r ps,
    m fuel (mkPState plugin (m_clock_reads ms) (m_stdout ms) (m_delivered ms)) = Some (r, ps)
    ∧ ms' = mkMState (manager ms) (clock_reads ps) (stdout ps) (delivered ps)
    ∧ o = match r with Return a => Return (a, self ps) | Raise e => Raise e end.
Proof.
  unfold call_local. destruct (m fuel _) as [[r ps]|]; [|done].
  destruct r; intros [= <- <-]; eauto.
Qed.

Ltac mgr_inv :=
  repeat first
    [ progress run_inv
    | match goal with
      | H : print _ _ _ = Some _ |- _ => apply print_Some in H as [? ?]
      end ].

Section Manager.

Context (run_handler : Handler -> Event.t -> BasePlugin -> outcome unit * BasePlugin)
        (utcnow : nat -> Timestamp)
        (external : nat -> ExternalClass).

Lemma load_plugin_loaded plugin_name config fuel ms :
  is_Some (PluginManager.plugins (manager ms) !! plugin_name) →
  load_plugin external plugin_name config fuel ms
  = Some (Return true,
          mkMState (manager ms) (m_clock_reads ms)
            (m_stdout ms ++ ["Plugin " +:+ plugin_name +:+ " already loaded"])
            (m_delivered ms)).
Proof.
  intros Hin. unfold load_plugin, Py.bind at 1, get.
  by rewrite bool_decide_eq_true_2.
Qed.

Lemma load_plugin_true_stored plugin_name config fuel ms ms1 :
  load_plugin external plugin_name config fuel ms = Some (Return true, ms1) →
  is_Some (PluginManager.plugins (manager ms1) !! plugin_name).
Proof.
  intros Hrun. unfold load_plugin in Hrun. mgr_inv.
  case_bool_decide as Hin; mgr_inv; [done|].
  destruct (PluginManager.plugin_classes (manager ms) !! plugin_name) as [cls|];
    mgr_inv.
  all: try done.
  match goal with
  | H : (let '(_, _) := ?x in _) _ _ = _ |- _ => destruct x as [[|] plugin]
  end; mgr_inv; [|done].
  cbn. by rewrite lookup_insert_eq.
Qed.

Lemma load_plugin_false_stores_nothing plugin_name config fuel ms ms1 :
  load_plugin external plugin_name config fuel ms = Some (Return false, ms1) →
  PluginManager.plugins (manager ms1) = PluginManager.plugins (manager ms).
Proof.
  intros Hrun. unfold load_plugin in Hrun. mgr_inv.
  case_bool_decide as Hin; mgr_inv; [done|].
  destruct (PluginManager.plugin_classes (manager ms) !! plugin_name) as [cls|];
    mgr_inv; try done.
  all: try match goal with
    | H : (let '(_, _) := ?x in _) _ _ = _ |- _ => destruct x as [[|] plugin]; mgr_inv
    end.
  all: repeat match goal with
    | H : call_local _ _ _ _ = Some _ |- _ =>
        apply call_local_Some in H as (? & ? & _ & ? & _); subst
    end.
  all: done.
Qed.

(** C9, as amended.  When [load_plugin] has returned true for a name,
    an instance is stored under that name, and a second call for the
    same name returns true after only printing a message: the
    manager, its stored instances included, the clock and the record
    of deliveries are as the first call left them, so no instance is
    constructed and [initialize] is not run again.  When it has
    returned false, the stored instances are those from before the
    call. *)
Theorem load_plugin_again_is_a_no_op plugin_name config config' fuel fuel' ms ms1 :
  (load_plugin external plugin_name config fuel ms = Some (Return true, ms1) →
   is_Some (PluginManager.plugins (manager ms1) !! plugin_name)
   ∧ load_plugin external plugin_name config' fuel' ms1
     = Some (Return true,
             mkMState (manager ms1) (m_clock_reads ms1)
               (m_stdout ms1 ++ ["Plugin " +:+ plugin_name +:+ " already loaded"])
               (m_delivered ms1)))
  ∧ (load_plugin external plugin_name config fuel ms = Some (Return false, ms1) →
     PluginManager.plugins (manager ms1) = PluginManager.plugins (manager ms)).
Proof.
  split.
  - intros Hrun. apply load_plugin_true_stored in Hrun.
    split; [done|]. by apply load_plugin_loaded.
  - apply load_plugin_false_stores_nothing.
Qed.

(** Among subscribers that leave the subscriber list alone, the
    discovery of every instance finishes once the bound covers its
    subscribers. *)
Lemma discovery_finishes_quiet fuel plugin :
  keeps run_handler _event_handlers →
  length (_event_handlers plugin) ≤ fuel →
  discovery_finishes run_handler utcnow external fuel plugin.
Proof.
  intros Hh Hlen c out dl. unfold discover_devices, Py.bind at 1, get.
  cbn [self]. destruct (klass plugin).
  - destruct (finishes_philips_discover_devices run_handler utcnow external _ fuel
                Hh Hlen (mkPState plugin c out dl) eq_refl) as (o & s' & -> & _).
    by eexists.
  - destruct (finishes_xiaomi_discover_devices run_handler utcnow external _ fuel
                Hh Hlen (mkPState plugin c out dl) eq_refl) as (o & s' & -> & _).
    by eexists.
  - by eexists.
Qed.

Lemma discover_loop_spec items all_devices fuel ms :
  NoDup items.*1 →
  (∀ name plugin, (name, plugin) ∈ items → discovery_finishes run_handler utcnow external fuel plugin) →
  ∃ result ms',
    discover_loop run_handler utcnow external items all_devices fuel ms
    = Some (Return result, ms')
    ∧ (∀ name, name ∉ items.*1 →
         result !! name = all_devices !! name
         ∧ PluginManager.plugins (manager ms') !! name
           = PluginManager.plugins (manager ms) !! name)
    ∧ (∀ name plugin, (name, plugin) ∈ items →
         discovery_entry run_handler utcnow external fuel name plugin result ms').
Proof.
  revert all_devices ms.
  induction items as [|[name plugin] items IH]; intros all_devices ms Hnd Hfin.
  - exists all_devices, ms. split; [reflexivity|]. split; [by intros|].
    intros n p Hp. inversion Hp.
  - apply NoDup_cons in Hnd as [Hfresh Hnd]. cbn [discover_loop].
    destruct (Hfin name plugin ltac:(left) (m_clock_reads ms) (m_stdout ms) (m_delivered ms))
      as [[o ps] Hrun].
    set (ms1 := set_plugins (<[name := self ps]> (PluginManager.plugins (manager ms)))
                  (mkMState (manager ms) (clock_reads ps) (stdout ps) (delivered ps))).
    set (ms2 := match o with
                | Return _ => ms1
                | Raise e =>
                    mkMState (manager ms1) (m_clock_reads ms1)
                      (m_stdout ms1 ++
                         ["Failed to discover devices for plugin " +:+ name +:+ ": "
                          +:+ exn_msg e])
                      (m_delivered ms1)
                end).
    destruct (IH (<[name := discovered o]> all_devices) ms2 Hnd) as (result & ms' & Hloop & Hout & Hin).
    { intros n p Hp. apply (Hfin n). by right. }
    exists result, ms'. split.
    { unfold Py.bind at 1, try_except, Py.bind at 1, call_plugin. rewrite Hrun.
      destruct o; exact Hloop. }
    assert (Hplug : PluginManager.plugins (manager ms2) = <[name := self ps]> (PluginManager.plugins (manager ms)))
      by (by destruct o).
    split.
    + intros n Hn. apply not_elem_of_cons in Hn as [Hne Hn].
      destruct (Hout n Hn) as [-> ->].
      by rewrite Hplug, !lookup_insert_ne.
    + intros n p [[= -> ->]|Hp]%elem_of_cons; [|by apply Hin].
      destruct (Hout name Hfresh) as [E1 E2].
      exists (m_clock_reads ms), (m_stdout ms), (m_delivered ms), o, ps.
      split; [done|]. by rewrite E1, E2, Hplug, !lookup_insert_eq.
Qed.

(** C8.  [discover_all_devices] returns a map with exactly one key per
    loaded instance.  Each key carries what the discovery of that
    instance returned, or the empty list if it raised; a discovery
    that raises changes nothing in the entries of the others. *)
Theorem discover_all_devices_isolates_failures fuel ms :
  (∀ name plugin,
     PluginManager.plugins (manager ms) !! name = Some plugin →
     discovery_finishes run_handler utcnow external fuel plugin) →
  ∃ result ms',
    discover_all_devices run_handler utcnow external fuel ms = Some (Return result, ms')
    ∧ dom result = dom (PluginManager.plugins (manager ms))
    ∧ ∀ name plugin,
        PluginManager.plugins (manager ms) !! name = Some plugin →
        discovery_entry run_handler utcnow external fuel name plugin result ms'.
Proof.
  intros Hfin.
  destruct (discover_loop_spec (map_to_list (PluginManager.plugins (manager ms))) ∅ fuel ms)
    as (result & ms' & Hloop & Hout & Hin).
  { apply NoDup_fst_map_to_list. }
  { intros name plugin Hp. apply elem_of_map_to_list in Hp. by eapply Hfin. }
  exists result, ms'. split; [done|]. split.
  - apply set_eq. intros name. rewrite !elem_of_dom.
    destruct (PluginManager.plugins (manager ms) !! name) as [plugin|] eqn:Hp.
    + destruct (Hin name plugin) as (? & ? & ? & ? & ? & _ & -> & _);
        [by apply elem_of_map_to_list|]. split; eauto.
    + destruct (Hout name) as [-> _].
      { intros ((n & p) & -> & Hnp%elem_of_map_to_list)%list_elem_of_fmap.
        cbn in Hp. by rewrite Hnp in Hp. }
      by rewrite lookup_empty.
  - intros name plugin Hp. apply Hin. by apply elem_of_map_to_list.
Qed.

End Manager.

(** ** More on the registry and the event bus *)

Section RegistryMore.

Context (run_handler : Handler -> Event.t -> BasePlugin -> outcome unit * BasePlugin)
        (utcnow : nat -> Timestamp)
        (external : nat -> ExternalClass).

(** [remove_device] on an id that is not registered returns false,
    changes nothing and emits nothing.  On a registered id it drops the
    descriptor and the recorded state of that device, leaves the other
    devices and states alone, delivers [device_removed] to every
    subscriber and returns true. *)
Theorem remove_device_drops_descriptor_and_state device_id fuel s :
  (devices (self s) !! device_id = None →
   remove_device run_handler external device_id fuel s = Some (Return false, s))
  ∧ (quiet_handlers run_handler →
     length (_event_handlers (self s)) ≤ fuel →
     is_Some (devices (self s) !! device_id) →
     ∃ s', remove_device run_handler external device_id fuel s = Some (Return true, s')
       ∧ devices (self s') = delete device_id (devices (self s))
       ∧ device_states (self s') = delete device_id (device_states (self s))
       ∧ delivered s' =
           delivered s ++ deliveries (_event_handlers (self s))
             (make_event external s "device_removed" (device_removed_data device_id))).
Proof.
  split.
  - intros Hno. unfold remove_device, try_except, Py.bind, get, ret.
    rewrite bool_decide_eq_false_2; [done|]. rewrite Hno. by intros [? ?].
  - intros Hq Hlen Hin.
    unfold remove_device, try_except, Py.bind, get, modify, ret. cbn.
    rewrite bool_decide_eq_true_2 by done. case_bool_decide as Hst; cbn.
    + set (s0 := set_self _ _).
      destruct (emit_event_quiet run_handler external "device_removed"
                  (device_removed_data device_id) fuel s0 Hq Hlen)
        as (s' & -> & H1 & H2 & _ & _ & _ & H3).
      by exists s'.
    + set (s0 := set_self _ _).
      destruct (emit_event_quiet run_handler external "device_removed"
                  (device_removed_data device_id) fuel s0 Hq Hlen)
        as (s' & -> & H1 & H2 & _ & _ & _ & H3).
      exists s'. repeat split; try done. rewrite H2. cbn.
      symmetry. apply delete_id. by apply eq_None_not_Some.
Qed.

(** In every registry that started empty, each recorded state belongs
    to a registered device and is filed under its own [device_id]; so
    [health_check] never reports more online devices than devices. *)
Theorem recorded_states_belong_to_devices ops s :
  keeps run_handler devices →
  keeps run_handler device_states →
  reach run_handler utcnow external ops s →
  (∀ id st, device_states (self s) !! id = Some st →
     is_Some (devices (self s) !! id) ∧ DeviceState.device_id st = id)
  ∧ (∀ fuel, ∃ h,
       health_check fuel s = Some (Return h, s)
       ∧ devices_count h = size (devices (self s))
       ∧ online_devices h ≤ devices_count h).
Proof.
  intros Hd Hs Hreach.
  pose proof (reach_ok run_handler utcnow external Hd Hs _ _ Hreach) as Hok. split.
  - intros id st Hst. by destruct (Hok id st Hst) as (? & ? & _).
  - intros fuel. eexists. split; [reflexivity|]. split; [reflexivity|]. cbn.
    etrans; [apply length_filter|].
    rewrite length_fmap, length_map_to_list, <- !size_dom.
    apply subseteq_size. intros id [st Hst]%elem_of_dom. apply elem_of_dom.
    by destruct (Hok id st Hst) as (? & _).
Qed.

(** A subscriber list that grows with every call: the emission walks
    the live list and never reaches its end, whatever bound is put on
    the number of invocations. *)
Lemma emit_loop_never_ends fuel i event s :
  (∀ h ev p, length (_event_handlers p)
             < length (_event_handlers (snd (run_handler h ev p)))) →
  i < length (_event_handlers (self s)) →
  emit_loop run_handler fuel i event s = None.
Proof.
  intros Hgrow. revert i s. induction fuel as [|fuel IH]; intros i s Hi; cbn.
  - destruct (lookup_lt_is_Some_2 _ _ Hi) as [h ->]. done.
  - destruct (lookup_lt_is_Some_2 _ _ Hi) as [h ->].
    pose proof (Hgrow h event (self s)) as Hlt.
    destruct (run_handler h event (self s)) as [o p']. cbn in Hlt.
    assert (emit_loop run_handler fuel (S i) event
              (mkPState p' (clock_reads s) (stdout s) (delivered s ++ [(h, event)]))
            = None) as Hnone by (apply IH; cbn; lia).
    by destruct o.
Qed.

Theorem emit_event_never_ends_when_subscribers_keep_subscribing event_type data s :
  (∀ h ev p, length (_event_handlers p)
             < length (_event_handlers (snd (run_handler h ev p)))) →
  _event_handlers (self s) ≠ [] →
  ∀ fuel, _emit_event run_handler external event_type data fuel s = None.
Proof.
  intros Hgrow Hne fuel. unfold _emit_event.
  rewrite emit_loop_never_ends; [done|done|].
  destruct (_event_handlers (self s)); [done|cbn; lia].
Qed.

End RegistryMore.

(** ** Subscribing and unsubscribing *)

Lemma list_remove_absent handler l : handler ∉ l → list_remove handler l = l.
Proof.
  induction l as [|h l IH]; [done|]. intros [Hne Hl]%not_elem_of_cons. cbn.
  case_decide; [congruence|]. by rewrite IH.
Qed.

Lemma list_remove_first handler l1 l2 :
  handler ∉ l1 → list_remove handler (l1 ++ handler :: l2) = l1 ++ l2.
Proof.
  induction l1 as [|h l1 IH]; cbn.
  - intros _. by case_decide.
  - intros [Hne Hl]%not_elem_of_cons. case_decide; [congruence|]. by rewrite IH.
Qed.

Lemma remove_event_handler_after_add handler p :
  handler ∉ _event_handlers p →
  remove_event_handler handler (add_event_handler handler p) = p.
Proof.
  intros Hno. unfold remove_event_handler, add_event_handler. cbn.
  rewrite bool_decide_eq_true_2 by set_solver. destruct p as [? ? ? ? ? l ? ?].
  cbn in *. unfold set_event_handlers. cbn. f_equal.
  rewrite <- (app_nil_r l) at 2. by apply list_remove_first.
Qed.

(** [remove_event_handler] does nothing when the handler is not
    subscribed, and otherwise removes its first subscription only,
    keeping the others in order; so subscribing and unsubscribing a new
    handler gives the instance back, while doing so with a handler
    that was already subscribed moves its subscription to the end. *)
Theorem remove_event_handler_drops_first_subscription handler p :
  (handler ∉ _event_handlers p → remove_event_handler handler p = p)
  ∧ (∀ l1 l2, _event_handlers p = l1 ++ handler :: l2 → handler ∉ l1 →
       _event_handlers (remove_event_handler handler p) = l1 ++ l2
       ∧ _event_handlers (remove_event_handler handler (add_event_handler handler p))
         = l1 ++ l2 ++ [handler])
  ∧ (handler ∉ _event_handlers p →
     remove_event_handler handler (add_event_handler handler p) = p).
Proof.
  split; [|split].
  - intros Hno. unfold remove_event_handler. by rewrite bool_decide_eq_false_2.
  - intros l1 l2 Hl Hno. unfold remove_event_handler, add_event_handler. cbn.
    rewrite !bool_decide_eq_true_2 by (rewrite Hl; set_solver). cbn.
    rewrite Hl, <- app_assoc. cbn. by rewrite !list_remove_first.
  - apply remove_event_handler_after_add.
Qed.

(** ** The actions and the discovery of the built-in integrations *)

Section RunSteps.

Context {S : Type}.

Lemma bind_run {A B} (m : M S A) (k : A -> M S B) fuel s a s1 :
  m fuel s = Some (Return a, s1) → Py.bind m k fuel s = k a fuel s1.
Proof. intros Hrun. unfold Py.bind. by rewrite Hrun. Qed.

Lemma bind_bind {A B C} (m : M S A) (k1 : A -> M S B) (k2 : B -> M S C) fuel s :
  Py.bind (Py.bind m k1) k2 fuel s = Py.bind m (fun a => Py.bind (k1 a) k2) fuel s.
Proof. unfold Py.bind. by destruct (m fuel s) as [[[a|e] s1]|]. Qed.

Lemma try_except_run {A} (body : M S A) (handler : exn -> M S A) fuel s a s1 :
  body fuel s = Some (Return a, s1) → try_except body handler fuel s = Some (Return a, s1).
Proof. intros Hrun. unfold try_except. by rewrite Hrun. Qed.

End RunSteps.

(** Evaluate the membership tests on the capabilities of a device. *)
Ltac eval_member :=
  repeat match goal with
  | |- context [bool_decide (?c ∈ ?l)] =>
      let r := eval vm_compute in (bool_decide (c ∈ l)) in
      change (bool_decide (c ∈ l)) with r
  end;
  cbv iota.

(** Run the first computation of a sequence, given its result. *)
Ltac run_with R :=
  rewrite ?bind_bind; rewrite (bind_run _ _ _ _ _ _ R); lazy beta.

Lemma getattr_run name v fuel s :
  attrs (self s) !! name = Some v → getattr name fuel s = Some (Return v, s).
Proof. intros Hv. unfold getattr, Py.bind, get. by rewrite Hv. Qed.

(** Evaluate the comparisons of an action name with the literals of
    the source. *)
Ltac eval_eqb :=
  repeat match goal with
  | |- context [String.eqb ?a ?b] =>
      let r := eval vm_compute in (String.eqb a b) in
      change (String.eqb a b) with r
  end;
  cbv iota.

Section Integrations.

Context (run_handler : Handler -> Event.t -> BasePlugin -> outcome unit * BasePlugin)
        (utcnow : nat -> Timestamp)
        (external : nat -> ExternalClass).

Hypothesis Hq : quiet_handlers run_handler.

Lemma add_device_run device fuel s :
  length (_event_handlers (self s)) ≤ fuel →
  ∃ s', add_device run_handler external device fuel s = Some (Return true, s')
    ∧ devices (self s') = <[DeviceInfo.id device := device]> (devices (self s))
    ∧ device_states (self s') = device_states (self s)
    ∧ _event_handlers (self s') = _event_handlers (self s)
    ∧ clock_reads s' = clock_reads s.
Proof.
  intros Hlen. unfold add_device, try_except, Py.bind, modify, ret. cbn.
  set (s0 := set_self _ s).
  destruct (emit_event_quiet run_handler external "device_added"
              (device_added_data device) fuel s0 Hq Hlen)
    as (s' & -> & H1 & H2 & H3 & H4 & _).
  by exists s'.
Qed.

Lemma update_device_state_run device_id properties fuel s :
  length (_event_handlers (self s)) ≤ fuel →
  is_Some (devices (self s) !! device_id) →
  ∃ s', update_device_state run_handler utcnow external device_id properties fuel s
        = Some (Return true, s')
    ∧ devices (self s') = devices (self s)
    ∧ device_states (self s') =
        <[device_id := DeviceState.Build device_id properties
                         (utcnow (clock_reads s)) true]> (device_states (self s))
    ∧ _event_handlers (self s') = _event_handlers (self s)
    ∧ clock_reads s' = S (clock_reads s).
Proof.
  intros Hlen Hin.
  unfold update_device_state, try_except, Py.bind, get, ret, modify, datetime_utcnow. cbn.
  rewrite bool_decide_eq_true_2 by done. cbn.
  set (s0 := set_self _ _).
  destruct (emit_event_quiet run_handler external "state_changed"
              (state_changed_data (DeviceState.Build device_id properties
                                     (utcnow (clock_reads s)) true)) fuel s0 Hq Hlen)
    as (s' & -> & H1 & H2 & H3 & H4 & _).
  by exists s'.
Qed.

(** [execute_action] on a registered device when the integration's
    code comes down to one [update_device_state] followed by
    [return True], inside its [try]. *)
Lemma execute_action_updates device_id action parameters properties fuel s :
  length (_event_handlers (self s)) ≤ fuel →
  is_Some (devices (self s) !! device_id) →
  _execute_device_action run_handler utcnow external device_id action
    (default ∅ parameters) fuel s
  = try_except
      (update_device_state run_handler utcnow external device_id properties ;;;
       ret true)
      (fun _ => ret false) fuel s →
  ∃ s', execute_action run_handler utcnow external device_id action parameters fuel s
        = Some (Return true, s')
    ∧ devices (self s') = devices (self s)
    ∧ device_states (self s') =
        <[device_id := DeviceState.Build device_id properties
                         (utcnow (clock_reads s)) true]> (device_states (self s)).
Proof.
  intros Hlen Hin Hact.
  unfold execute_action, Py.bind at 1, get.
  rewrite bool_decide_eq_true_2 by done. cbn [negb].
  unfold try_except, Py.bind at 1. rewrite Hact.
  destruct (update_device_state_run device_id properties fuel s Hlen Hin)
    as (s1 & Hrun & H1 & H2 & H3 & _).
  destruct (emit_event_quiet run_handler external "action_executed"
              (action_executed_data device_id action (default ∅ parameters) true)
              fuel s1 Hq ltac:(by rewrite H3))
    as (s' & Hemit & E1 & E2 & _).
  unfold try_except, Py.bind, ret. rewrite Hrun. lazy beta iota. rewrite Hemit.
  exists s'. by rewrite E1, E2, H1, H2.
Qed.

(** [execute_action] on a registered device when the integration's
    code returns false without touching anything. *)
Lemma execute_action_refused device_id action parameters fuel s :
  length (_event_handlers (self s)) ≤ fuel →
  is_Some (devices (self s) !! device_id) →
  _execute_device_action run_handler utcnow external device_id action
    (default ∅ parameters) fuel s = Some (Return false, s) →
  ∃ s', execute_action run_handler utcnow external device_id action parameters fuel s
        = Some (Return false, s')
    ∧ devices (self s') = devices (self s)
    ∧ device_states (self s') = device_states (self s)
    ∧ delivered s' =
        delivered s ++ deliveries (_event_handlers (self s))
          (make_event external s "action_executed"
             (action_executed_data device_id action (default ∅ parameters) false)).
Proof.
  intros Hlen Hin Hact.
  unfold execute_action, Py.bind at 1, get.
  rewrite bool_decide_eq_true_2 by done. cbn [negb].
  unfold try_except, Py.bind at 1. rewrite Hact.
  destruct (emit_event_quiet run_handler external "action_executed"
              (action_executed_data device_id action (default ∅ parameters) false)
              fuel s Hq Hlen)
    as (s' & Hemit & E1 & E2 & _ & _ & _ & E3).
  unfold Py.bind, ret. rewrite Hemit. by exists s'.
Qed.

(** On a Philips Hue instance, [turn_on], [turn_off] and [set_color]
    on a registered light return true and replace its whole recorded
    state: [turn_on] stores power on with the brightness and colour of
    the parameters, 100 and white when absent; [turn_off] stores power
    off and brightness 0, dropping the colour; [set_color] stores the
    colour and power on, dropping the brightness. *)
Theorem philips_actions_replace_state device_id parameters fuel s :
  klass (self s) = PhilipsHuePlugin →
  length (_event_handlers (self s)) ≤ fuel →
  is_Some (devices (self s) !! device_id) →
  let stored properties s' :=
    devices (self s') = devices (self s)
    ∧ device_states (self s') =
        <[device_id := DeviceState.Build device_id properties
                         (utcnow (clock_reads s)) true]> (device_states (self s)) in
  let given := default ∅ parameters in
  (∃ s', execute_action run_handler utcnow external device_id "turn_on" parameters fuel s
         = Some (Return true, s')
     ∧ stored (<["color" := dict_get given "color" (VStr "#FFFFFF")]>
                 (<["brightness" := dict_get given "brightness" (VInt 100)]>
                    {["power" := VBool true]})) s')
  ∧ (∃ s', execute_action run_handler utcnow external device_id "turn_off" parameters fuel s
           = Some (Return true, s')
       ∧ stored (<["brightness" := VInt 0]> {["power" := VBool false]}) s')
  ∧ (∃ s', execute_action run_handler utcnow external device_id "set_color" parameters fuel s
           = Some (Return true, s')
       ∧ stored (<["power" := VBool true]>
                   {["color" := dict_get given "color" (VStr "#FFFFFF")]}) s').
Proof.
  intros Hk Hlen Hin stored given.
  repeat split.
  all: edestruct execute_action_updates as (s' & Hrun & H1 & H2);
    [exact Hlen|exact Hin| |exists s'; split; [exact Hrun|by split]].
  all: rewrite execute_device_action_dispatch, Hk;
    unfold philips_execute_device_action; eval_eqb; reflexivity.
Qed.

Lemma Qle_bool_inject_Z a b : Qle_bool (inject_Z a) (inject_Z b) = (a <=? b)%Z.
Proof. unfold Qle_bool, inject_Z. cbn. by rewrite !Z.mul_1_r. Qed.

(** [max(0, min(100, brightness))] on an integer. *)
Lemma clamp_integer z :
  Py.min (VInt 100) (VInt z) = Return (VInt (Z.min 100 z))
  ∧ Py.max (VInt 0) (VInt (Z.min 100 z)) = Return (VInt (Z.max 0 (Z.min 100 z))).
Proof.
  unfold Py.min, Py.max, Py.lt, as_number. rewrite !Qle_bool_inject_Z. split.
  - destruct (Z.leb_spec 100 z); cbn; do 2 f_equal; lia.
  - destruct (Z.leb_spec (Z.min 100 z) 0); cbn; do 2 f_equal; lia.
Qed.

(** [set_brightness] on a registered Philips Hue light.  An integer
    brightness is clamped to the range from 0 to 100 and stored, alone:
    the recorded power and colour are dropped.  A brightness that is a
    string or [None] makes the comparison fail: the action returns
    false and the registry is untouched. *)
Theorem philips_set_brightness_clamps device_id parameters fuel s :
  klass (self s) = PhilipsHuePlugin →
  length (_event_handlers (self s)) ≤ fuel →
  is_Some (devices (self s) !! device_id) →
  let brightness := dict_get (default ∅ parameters) "brightness" (VInt 50) in
  (∀ z, brightness = VInt z →
     ∃ s', execute_action run_handler utcnow external device_id "set_brightness"
             parameters fuel s = Some (Return true, s')
       ∧ devices (self s') = devices (self s)
       ∧ device_states (self s') =
           <[device_id := DeviceState.Build device_id
                            {["brightness" := VInt (Z.max 0 (Z.min 100 z))]}
                            (utcnow (clock_reads s)) true]> (device_states (self s)))
  ∧ (as_number brightness = None →
     ∃ s', execute_action run_handler utcnow external device_id "set_brightness"
             parameters fuel s = Some (Return false, s')
       ∧ devices (self s') = devices (self s)
       ∧ device_states (self s') = device_states (self s)).
Proof.
  intros Hk Hlen Hin brightness. split.
  - intros z Hz. apply execute_action_updates; [done|done|].
    rewrite execute_device_action_dispatch, Hk.
    unfold philips_execute_device_action. eval_eqb. fold brightness. rewrite Hz.
    destruct (clamp_integer z) as [-> E2].
    unfold try_except, Py.bind at 1, of_outcome at 1. unfold Py.bind at 1, of_outcome at 1.
    by rewrite E2.
  - intros Hnum.
    destruct (execute_action_refused device_id "set_brightness" parameters fuel s Hlen Hin)
      as (s' & Hrun & H1 & H2 & _); [|by exists s'].
    rewrite execute_device_action_dispatch, Hk.
    unfold philips_execute_device_action. eval_eqb. fold brightness.
    unfold try_except, Py.bind, of_outcome, Py.min, Py.lt. by rewrite Hnum.
Qed.

(** An action name the Philips Hue integration does not know: the
    result is false, the registry is untouched, and the subscribers
    still receive [action_executed], with the result false. *)
Theorem philips_unknown_action_is_refused device_id action parameters fuel s :
  klass (self s) = PhilipsHuePlugin →
  length (_event_handlers (self s)) ≤ fuel →
  is_Some (devices (self s) !! device_id) →
  action ∉ ["turn_on"; "turn_off"; "set_brightness"; "set_color"] →
  ∃ s', execute_action run_handler utcnow external device_id action parameters fuel s
        = Some (Return false, s')
    ∧ devices (self s') = devices (self s)
    ∧ device_states (self s') = device_states (self s)
    ∧ delivered s' =
        delivered s ++ deliveries (_event_handlers (self s))
          (make_event external s "action_executed"
             (action_executed_data device_id action (default ∅ parameters) false)).
Proof.
  intros Hk Hlen Hin Hno. apply execute_action_refused; [done|done|].
  rewrite execute_device_action_dispatch, Hk. unfold philips_execute_device_action.
  repeat (apply not_elem_of_cons in Hno as [?%String.eqb_neq Hno]).
  by repeat match goal with H : String.eqb _ _ = false |- _ => rewrite H; clear H end.
Qed.

(** On a Xiaomi instance, [reset_battery] on a registered sensor
    returns true and replaces its whole recorded state by a battery
    level of 100, dropping the measurements; [calibrate] returns true
    and leaves the registry as it is; any other action is refused. *)
Theorem xiaomi_actions device_id action parameters fuel s :
  klass (self s) = XiaomiSensorsPlugin →
  length (_event_handlers (self s)) ≤ fuel →
  is_Some (devices (self s) !! device_id) →
  (∃ s', execute_action run_handler utcnow external device_id "reset_battery" parameters
           fuel s = Some (Return true, s')
     ∧ devices (self s') = devices (self s)
     ∧ device_states (self s') =
         <[device_id := DeviceState.Build device_id {["battery" := VInt 100]}
                          (utcnow (clock_reads s)) true]> (device_states (self s)))
  ∧ (∃ s', execute_action run_handler utcnow external device_id "calibrate" parameters
             fuel s = Some (Return true, s')
       ∧ devices (self s') = devices (self s)
       ∧ device_states (self s') = device_states (self s))
  ∧ (action ∉ ["calibrate"; "reset_battery"] →
     ∃ s', execute_action run_handler utcnow external device_id action parameters
             fuel s = Some (Return false, s')
       ∧ devices (self s') = devices (self s)
       ∧ device_states (self s') = device_states (self s)).
Proof.
  intros Hk Hlen Hin. split; [|split].
  - apply execute_action_updates; [done|done|].
    rewrite execute_device_action_dispatch, Hk.
    unfold xiaomi_execute_device_action. by eval_eqb.
  - unfold execute_action, Py.bind at 1, get.
    rewrite bool_decide_eq_true_2 by done. cbn [negb].
    unfold try_except at 1, Py.bind at 1.
    rewrite execute_device_action_dispatch, Hk.
    unfold xiaomi_execute_device_action. eval_eqb.
    destruct (emit_event_quiet run_handler external "device_calibrated"
                (device_calibrated_data device_id) fuel s Hq Hlen)
      as (s1 & Hemit1 & E1 & E2 & E3 & _).
    destruct (emit_event_quiet run_handler external "action_executed"
                (action_executed_data device_id "calibrate" (default ∅ parameters) true)
                fuel s1 Hq ltac:(by rewrite E3))
      as (s' & Hemit & F1 & F2 & _).
    unfold try_except, asyncio_sleep, Py.bind, ret. rewrite Hemit1. lazy beta iota.
    rewrite Hemit. exists s'. by rewrite F1, F2, E1, E2.
  - intros Hno.
    destruct (execute_action_refused device_id action parameters fuel s Hlen Hin)
      as (s' & Hrun & H1 & H2 & _); [|by exists s'].
    rewrite execute_device_action_dispatch, Hk. unfold xiaomi_execute_device_action.
    repeat (apply not_elem_of_cons in Hno as [?%String.eqb_neq Hno]).
    by repeat match goal with H : String.eqb _ _ = false |- _ => rewrite H; clear H end.
Qed.

(** [discover_devices] of a Philips Hue instance returns the two
    lights, registers both (replacing descriptors filed under their
    ids) and records for each the initial state, power off, whatever
    state was recorded before: a discovery resets the lights' states.
    Other devices and states are untouched. *)
Theorem philips_discover_devices_resets_lights bridge_ip fuel s :
  attrs (self s) !! "bridge_ip" = Some bridge_ip →
  length (_event_handlers (self s)) ≤ fuel →
  let initial :=
    <["color" := VStr "#FFFFFF"]>
      (<["brightness" := VInt 0]> {["power" := VBool false]}) in
  ∃ first second s',
    philips_devices bridge_ip = [first; second]
    ∧ philips_discover_devices run_handler utcnow external fuel s
      = Some (Return [first; second], s')
    ∧ devices (self s') =
        <["hue_light_002" := second]> (<["hue_light_001" := first]> (devices (self s)))
    ∧ device_states (self s') =
        <["hue_light_002" := DeviceState.Build "hue_light_002" initial
                               (utcnow (S (clock_reads s))) true]>
          (<["hue_light_001" := DeviceState.Build "hue_light_001" initial
                                  (utcnow (clock_reads s)) true]>
             (device_states (self s))).
Proof.
  intros Hattr Hlen initial. subst initial.
  destruct (philips_devices bridge_ip) as [|first [|second [|]]] eqn:E; try discriminate.
  pose proof E as E0. unfold philips_devices in E0. injection E0 as E1 E2.
  assert (I1 : DeviceInfo.id first = "hue_light_001") by (by rewrite <- E1).
  assert (I2 : DeviceInfo.id second = "hue_light_002") by (by rewrite <- E2).
  clear E1 E2.
  destruct (add_device_run first fuel s Hlen) as (s1 & R1 & D1 & S1 & L1 & C1).
  destruct (update_device_state_run "hue_light_001"
              (<["color" := VStr "#FFFFFF"]>
                 (<["brightness" := VInt 0]> {["power" := VBool false]})) fuel s1)
    as (s2 & R2 & D2 & S2 & L2 & C2);
    [by rewrite L1|rewrite D1, I1; by rewrite lookup_insert_eq|].
  destruct (add_device_run second fuel s2) as (s3 & R3 & D3 & S3 & L3 & C3);
    [by rewrite L2, L1|].
  destruct (update_device_state_run "hue_light_002"
              (<["color" := VStr "#FFFFFF"]>
                 (<["brightness" := VInt 0]> {["power" := VBool false]})) fuel s3)
    as (s4 & R4 & D4 & S4 & L4 & C4);
    [by rewrite L3, L2, L1|rewrite D3, I2; by rewrite lookup_insert_eq|].
  exists first, second, s4. split; [reflexivity|]. split.
  - unfold philips_discover_devices. apply try_except_run.
    rewrite (bind_run _ _ _ _ _ _ (getattr_run _ _ fuel s Hattr)).
    rewrite E. cbn [for_each]. rewrite I1, I2.
    run_with R1. run_with R2. run_with (eq_refl : ret tt fuel s2 = Some (Return tt, s2)).
    run_with R3. run_with R4. run_with (eq_refl : ret tt fuel s4 = Some (Return tt, s4)).
    reflexivity.
  - rewrite D4, D3, D2, D1, S4, S3, S2, S1, C3, C2, C1, I1, I2. done.
Qed.

(** [discover_devices] of a Xiaomi instance returns the three
    sensors, registers them and records for each the initial state
    that goes with its capability: temperature and humidity readings
    for the temperature sensor, a closed contact for the door sensor,
    no motion for the motion sensor, each with its battery level. *)
Theorem xiaomi_discover_devices_seeds_by_capability gateway_ip fuel s :
  attrs (self s) !! "gateway_ip" = Some gateway_ip →
  length (_event_handlers (self s)) ≤ fuel →
  ∃ temp door motion s',
    xiaomi_devices gateway_ip = [temp; door; motion]
    ∧ xiaomi_discover_devices run_handler utcnow external fuel s
      = Some (Return [temp; door; motion], s')
    ∧ devices (self s') =
        <["xiaomi_motion_001" := motion]>
          (<["xiaomi_door_001" := door]>
             (<["xiaomi_temp_001" := temp]> (devices (self s))))
    ∧ device_states (self s') =
        <["xiaomi_motion_001" :=
            DeviceState.Build "xiaomi_motion_001"
              (<["battery" := VInt 80]>
                 (<["last_motion" := VNone]> {["motion" := VBool false]}))
              (utcnow (S (S (clock_reads s)))) true]>
          (<["xiaomi_door_001" :=
               DeviceState.Build "xiaomi_door_001"
                 (<["battery" := VInt 90]> {["contact" := VBool true]})
                 (utcnow (S (clock_reads s))) true]>
             (<["xiaomi_temp_001" :=
                  DeviceState.Build "xiaomi_temp_001"
                    (<["battery" := VInt 85]>
                       (<["humidity" := VInt 45]> {["temperature" := VFloat (45 # 2)]}))
                    (utcnow (clock_reads s)) true]>
                (device_states (self s)))).
Proof.
  intros Hattr Hlen.
  destruct (xiaomi_devices gateway_ip) as [|temp [|door [|motion [|]]]] eqn:E;
    try discriminate.
  pose proof E as E0. unfold xiaomi_devices in E0. injection E0 as E1 E2 E3.
  assert (I1 : DeviceInfo.id temp = "xiaomi_temp_001") by (by rewrite <- E1).
  assert (I2 : DeviceInfo.id door = "xiaomi_door_001") by (by rewrite <- E2).
  assert (I3 : DeviceInfo.id motion = "xiaomi_motion_001") by (by rewrite <- E3).
  assert (K1 : DeviceInfo.capabilities temp = [TEMPERATURE; HUMIDITY]) by (by rewrite <- E1).
  assert (K2 : DeviceInfo.capabilities door = [DOOR_WINDOW]) by (by rewrite <- E2).
  assert (K3 : DeviceInfo.capabilities motion = [MOTION]) by (by rewrite <- E3).
  clear E1 E2 E3.
  destruct (add_device_run temp fuel s Hlen) as (s1 & R1 & D1 & S1 & L1 & C1).
  destruct (update_device_state_run "xiaomi_temp_001"
              (<["battery" := VInt 85]>
                 (<["humidity" := VInt 45]> {["temperature" := VFloat (45 # 2)]})) fuel s1)
    as (s2 & R2 & D2 & S2 & L2 & C2);
    [by rewrite L1|rewrite D1, I1; by rewrite lookup_insert_eq|].
  destruct (add_device_run door fuel s2) as (s3 & R3 & D3 & S3 & L3 & C3);
    [by rewrite L2, L1|].
  destruct (update_device_state_run "xiaomi_door_001"
              (<["battery" := VInt 90]> {["contact" := VBool true]}) fuel s3)
    as (s4 & R4 & D4 & S4 & L4 & C4);
    [by rewrite L3, L2, L1|rewrite D3, I2; by rewrite lookup_insert_eq|].
  destruct (add_device_run motion fuel s4) as (s5 & R5 & D5 & S5 & L5 & C5);
    [by rewrite L4, L3, L2, L1|].
  destruct (update_device_state_run "xiaomi_motion_001"
              (<["battery" := VInt 80]>
                 (<["last_motion" := VNone]> {["motion" := VBool false]})) fuel s5)
    as (s6 & R6 & D6 & S6 & L6 & C6);
    [by rewrite L5, L4, L3, L2, L1|rewrite D5, I3; by rewrite lookup_insert_eq|].
  exists temp, door, motion, s6. split; [reflexivity|]. split.
  - unfold xiaomi_discover_devices. apply try_except_run.
    rewrite (bind_run _ _ _ _ _ _ (getattr_run _ _ fuel s Hattr)).
    rewrite E. cbn [for_each]. rewrite I1, I2, I3, K1, K2, K3.
    eval_member.
    run_with R1. run_with R2. run_with (eq_refl : ret tt fuel s2 = Some (Return tt, s2)).
    run_with R3. run_with R4. run_with (eq_refl : ret tt fuel s4 = Some (Return tt, s4)).
    run_with R5. run_with R6. run_with (eq_refl : ret tt fuel s6 = Some (Return tt, s6)).
    reflexivity.
  - rewrite D6, D5, D4, D3, D2, D1, S6, S5, S4, S3, S2, S1, C5, C4, C3, C2, C1, I1, I2, I3.
    done.
Qed.

End Integrations.

(** ** More on the plugin manager *)

Lemma philips_initialize_never_true fuel s :
  ∃ o, philips_initialize fuel s = Some (o, s) ∧ o ≠ Return true.
Proof.
  unfold philips_initialize, asyncio_sleep, getattr, try_except, Py.bind, get, ret.
  lazy beta iota.
  destruct (attrs (self s) !! "bridge_ip") as [b|]; lazy beta iota;
    [|by eexists].
  destruct (attrs (self s) !! "username") as [u|]; lazy beta iota;
    [|by eexists].
  destruct (negb (truthy b) || negb (truthy u)); by eexists.
Qed.

Lemma xiaomi_initialize_never_true fuel s :
  ∃ o, xiaomi_initialize fuel s = Some (o, s) ∧ o ≠ Return true.
Proof.
  unfold xiaomi_initialize, asyncio_sleep, getattr, try_except, Py.bind, get, ret.
  lazy beta iota.
  destruct (attrs (self s) !! "gateway_ip") as [b|]; lazy beta iota;
    [|by eexists].
  destruct (attrs (self s) !! "gateway_token") as [u|]; lazy beta iota;
    [|by eexists].
  destruct (negb (truthy b) || negb (truthy u)); by eexists.
Qed.

Lemma foldl_add_event_handler p l :
  klass (foldl (fun p handler => add_event_handler handler p) p l) = klass p
  ∧ _event_handlers (foldl (fun p handler => add_event_handler handler p) p l)
    = _event_handlers p ++ l.
Proof.
  revert p. induction l as [|h l IH]; intros p; cbn; [by rewrite app_nil_r|].
  destruct (IH (add_event_handler h p)) as [-> ->]. cbn. by rewrite <- app_assoc.
Qed.

Section ManagerMore.

Context (run_handler : Handler -> Event.t -> BasePlugin -> outcome unit * BasePlugin)
        (utcnow : nat -> Timestamp)
        (external : nat -> ExternalClass).

Lemma new_plugin_builtin cls cfg :
  builtin cls = true →
  ∃ p, new_plugin external cls cfg = Return p ∧ klass p = cls.
Proof. destruct cls; [by eexists|by eexists|done]. Qed.

Lemma new_plugin_fresh cls cfg p :
  new_plugin external cls cfg = Return p →
  klass p = cls ∧ _event_handlers p = [].
Proof.
  destruct cls; cbn; [by intros [= <-]..|].
  destruct (ext_init _ _); [by intros [= <-]|done].
Qed.

Lemma initialize_builtin_never_true fuel s :
  builtin (klass (self s)) = true →
  ∃ o, initialize external fuel s = Some (o, s) ∧ o ≠ Return true.
Proof.
  intros Hb. unfold initialize, Py.bind at 1, get.
  destruct (klass (self s)); [apply philips_initialize_never_true
                             |apply xiaomi_initialize_never_true|done].
Qed.

Lemma load_plugin_builtin_fails plugin_name cls config fuel ms :
  PluginManager.plugins (manager ms) !! plugin_name = None →
  PluginManager.plugin_classes (manager ms) !! plugin_name = Some cls →
  builtin cls = true →
  ∃ ms', load_plugin external plugin_name config fuel ms = Some (Return false, ms')
    ∧ manager ms' = manager ms.
Proof.
  intros Hno Hcls Hb. unfold load_plugin, Py.bind at 1, get.
  rewrite bool_decide_eq_false_2 by (rewrite Hno; by intros [? ?]). rewrite Hcls.
  destruct (new_plugin_builtin cls (Some (default ∅ config)) Hb) as (p & Hnew & Hk).
  unfold try_except, Py.bind at 1, of_outcome. rewrite Hnew.
  set (p' := foldl _ p _).
  assert (Hk' : builtin (klass p') = true)
    by (unfold p'; by rewrite (proj1 (foldl_add_event_handler _ _)), Hk).
  destruct (initialize_builtin_never_true fuel
              (mkPState p' (m_clock_reads ms) (m_stdout ms) (m_delivered ms)) Hk')
    as (o & Hinit & Hne).
  unfold Py.bind at 1, call_local. rewrite Hinit.
  destruct o as [[|]|e]; [done| |]; by eexists.
Qed.

(** No configuration makes [load_plugin] succeed on a class of the
    package: [initialize] either stops at its configuration check or
    raises [NameError] on the [PluginStatus] it does not import, and
    [load_plugin] reports either as a failure.  It returns false and
    nothing is stored. *)
Theorem load_plugin_never_loads_a_builtin plugin_name cls config fuel ms :
  PluginManager.plugins (manager ms) !! plugin_name = None →
  PluginManager.plugin_classes (manager ms) !! plugin_name = Some cls →
  builtin cls = true →
  ∃ ms', load_plugin external plugin_name config fuel ms = Some (Return false, ms')
    ∧ manager ms' = manager ms.
Proof. apply load_plugin_builtin_fails. Qed.

Lemma start_runs fuel s :
  ∃ o s', start external fuel s = Some (o, s')
    ∧ (builtin (klass (self s)) = true → o = Raise (NameError "PluginStatus") ∧ s' = s).
Proof.
  unfold start, Py.bind at 1, get. destruct (klass (self s)).
  - exists (Raise (NameError "PluginStatus")), s. split; [|done]. by destruct s as [[] ? ? ?].
  - exists (Raise (NameError "PluginStatus")), s. split; [|done]. by destruct s as [[] ? ? ?].
  - unfold lift_ext. destruct (ext_start (external n) s) as [o s']. by exists o, s'.
Qed.

Lemma stop_runs fuel s :
  ∃ o s', stop external fuel s = Some (o, s')
    ∧ (builtin (klass (self s)) = true → o = Return false ∧ s' = s).
Proof.
  unfold stop, Py.bind at 1, get. destruct (klass (self s)).
  - exists (Return false), s. split; [|done]. by destruct s as [[] ? ? ?].
  - exists (Return false), s. split; [|done]. by destruct s as [[] ? ? ?].
  - unfold lift_ext. destruct (ext_stop (external n) s) as [o s']. by exists o, s'.
Qed.

Lemma start_plugin_round fuel : round_ok (start_plugin external) fuel.
Proof.
  intros name ms. unfold start_plugin, Py.bind at 1, get.
  destruct (PluginManager.plugins (manager ms) !! name) as [p|] eqn:Hp;
    [|by exists false, ms].
  unfold try_except, Py.bind at 1, call_plugin.
  destruct (start_runs fuel (mkPState p (m_clock_reads ms) (m_stdout ms) (m_delivered ms)))
    as (o & ps & -> & Hb).
  destruct o as [[|]|e]; eexists _, _; (split; [reflexivity|]); cbn.
  all: split; [by intros other Hne; rewrite lookup_insert_ne|].
  all: intros ? [= <-] Hk; by destruct (Hb Hk).
Qed.

Lemma stop_plugin_round fuel : round_ok (stop_plugin external) fuel.
Proof.
  intros name ms. unfold stop_plugin, Py.bind at 1, get.
  destruct (PluginManager.plugins (manager ms) !! name) as [p|] eqn:Hp;
    [|by exists false, ms].
  unfold try_except, Py.bind at 1, call_plugin.
  destruct (stop_runs fuel (mkPState p (m_clock_reads ms) (m_stdout ms) (m_delivered ms)))
    as (o & ps & -> & Hb).
  destruct o as [[|]|e]; eexists _, _; (split; [reflexivity|]); cbn.
  all: split; [by intros other Hne; rewrite lookup_insert_ne|].
  all: intros ? [= <-] Hk; by destruct (Hb Hk).
Qed.

Lemma all_plugins_loop_spec action fuel names results ms :
  round_ok action fuel →
  NoDup names →
  ∃ result ms',
    all_plugins_loop action names results fuel ms = Some (Return result, ms')
    ∧ (∀ name, name ∉ names →
         result !! name = results !! name
         ∧ PluginManager.plugins (manager ms') !! name
           = PluginManager.plugins (manager ms) !! name)
    ∧ (∀ name, name ∈ names →
         ∃ b, result !! name = Some b
           ∧ ∀ p, PluginManager.plugins (manager ms) !! name = Some p →
               builtin (klass p) = true → b = false).
Proof.
  intros Hact. revert results ms.
  induction names as [|name names IH]; intros results ms Hnd.
  - exists results, ms. split; [reflexivity|]. split; [by intros|].
    intros n Hn. inversion Hn.
  - apply NoDup_cons in Hnd as [Hfresh Hnd]. cbn [all_plugins_loop].
    destruct (Hact name ms) as (b & ms1 & Hrun & Hother & Hb).
    destruct (IH (<[name := b]> results) ms1 Hnd) as (result & ms' & Hloop & Hout & Hin).
    exists result, ms'. split; [by rewrite (bind_run _ _ _ _ _ _ Hrun)|]. split.
    + intros n [Hne Hn]%not_elem_of_cons. destruct (Hout n Hn) as [-> ->].
      by rewrite lookup_insert_ne, Hother.
    + intros n [->|Hn]%elem_of_cons.
      * destruct (Hout name Hfresh) as [-> _]. exists b. by rewrite lookup_insert_eq.
      * destruct (Hin n Hn) as (b' & Hres & Hb'). exists b'. split; [done|].
        intros p Hp. apply Hb'. rewrite Hother; [done|]. by intros ->.
Qed.

(** [start_all_plugins] and [stop_all_plugins] always return, with one
    boolean per loaded instance; no failure of one instance, raised or
    returned, keeps the others from being visited.  The entry of an
    instance of a class of the package is false in both: its [start]
    raises and its [stop] returns false. *)
Theorem start_and_stop_all_plugins_visit_every_instance fuel ms :
  (∃ result ms',
     start_all_plugins external fuel ms = Some (Return result, ms')
     ∧ dom result = dom (PluginManager.plugins (manager ms))
     ∧ ∀ name p, PluginManager.plugins (manager ms) !! name = Some p →
         builtin (klass p) = true → result !! name = Some false)
  ∧ (∃ result ms',
       stop_all_plugins external fuel ms = Some (Return result, ms')
       ∧ dom result = dom (PluginManager.plugins (manager ms))
       ∧ ∀ name p, PluginManager.plugins (manager ms) !! name = Some p →
           builtin (klass p) = true → result !! name = Some false).
Proof.
  assert (∀ action, round_ok action fuel →
            ∃ result ms',
              all_plugins_loop action (map_to_list (PluginManager.plugins (manager ms))).*1
                ∅ fuel ms = Some (Return result, ms')
              ∧ dom result = dom (PluginManager.plugins (manager ms))
              ∧ ∀ name p, PluginManager.plugins (manager ms) !! name = Some p →
                  builtin (klass p) = true → result !! name = Some false) as Hall.
  { intros action Hact.
    destruct (all_plugins_loop_spec action fuel
                (map_to_list (PluginManager.plugins (manager ms))).*1 ∅ ms Hact
                (NoDup_fst_map_to_list _)) as (result & ms' & Hloop & Hout & Hin).
    assert (Hmem : ∀ name, name ∈ (map_to_list (PluginManager.plugins (manager ms))).*1
                           ↔ is_Some (PluginManager.plugins (manager ms) !! name)).
    { intros name. rewrite list_elem_of_fmap. split.
      - intros ([n p] & -> & Hnp%elem_of_map_to_list). by eexists.
      - intros [p Hp]. exists (name, p). split; [done|]. by apply elem_of_map_to_list. }
    exists result, ms'. split; [done|]. split.
    - apply set_eq. intros name. rewrite !elem_of_dom, <- Hmem.
      split.
      + intros Hres. destruct (decide (name ∈ (map_to_list
                                 (PluginManager.plugins (manager ms))).*1)) as [|Hno];
          [done|]. destruct (Hout name Hno) as [E _]. rewrite E, lookup_empty in Hres.
        by destruct Hres.
      + intros Hn. destruct (Hin name Hn) as (b & -> & _). by eexists.
    - intros name p Hp Hk. destruct (Hin name) as (b & -> & Hb); [apply Hmem; by eexists|].
      by rewrite (Hb p Hp Hk). }
  split.
  - destruct (Hall _ (start_plugin_round fuel)) as (result & ms' & Hrun & H1 & H2).
    exists result, ms'. by split.
  - destruct (Hall _ (stop_plugin_round fuel)) as (result & ms' & Hrun & H1 & H2).
    exists result, ms'. by split.
Qed.

(** [_load_configured_plugins] on a manager that knows only classes of
    the package, as a new manager does: it returns, and the manager is
    as before; in particular nothing has been loaded. *)
Lemma load_configured_loop_builtin names fuel ms :
  (∀ name cls, PluginManager.plugin_classes (manager ms) !! name = Some cls →
     builtin cls = true) →
  ∃ ms', load_configured_loop external names fuel ms = Some (Return tt, ms')
    ∧ manager ms' = manager ms.
Proof.
  intros Hcls. revert ms Hcls. induction names as [|name names IH]; intros ms Hcls.
  - by exists ms.
  - cbn [load_configured_loop].
    assert (∃ b ms1, load_plugin external name None fuel ms = Some (Return b, ms1)
                     ∧ manager ms1 = manager ms) as (b & ms1 & Hrun & Hm).
    { destruct (PluginManager.plugins (manager ms) !! name) as [p|] eqn:Hp.
      - eexists _, _. split; [apply load_plugin_loaded; by eexists|done].
      - destruct (PluginManager.plugin_classes (manager ms) !! name) as [cls|] eqn:Hc.
        + destruct (load_plugin_builtin_fails name cls None fuel ms Hp Hc (Hcls _ _ Hc))
            as (ms1 & Hrun & Hm). by exists false, ms1.
        + unfold load_plugin, Py.bind at 1, get.
          rewrite bool_decide_eq_false_2 by (rewrite Hp; by intros [? ?]). rewrite Hc.
          by eexists _, _. }
    destruct (IH ms1) as (ms' & Hloop & Hm'); [by rewrite Hm|].
    exists ms'. split; [|by rewrite Hm', Hm].
    unfold Py.bind at 1, try_except, Py.bind at 1. by rewrite Hrun.
Qed.

Theorem load_configured_plugins_loads_no_builtin fuel ms :
  (∀ name cls, PluginManager.plugin_classes (manager ms) !! name = Some cls →
     builtin cls = true) →
  ∃ ms', _load_configured_plugins external fuel ms = Some (Return tt, ms')
    ∧ manager ms' = manager ms.
Proof.
  intros Hcls. unfold _load_configured_plugins, Py.bind at 1, get.
  by apply load_configured_loop_builtin.
Qed.


(** The manager's [add_event_handler] and [remove_event_handler] keep
    the loaded instances in step with the global list, and [load_plugin]
    brings a new instance in with the global list, as long as its
    [initialize] leaves its subscribers alone.  Registering a new
    handler and removing it again gives the manager back. *)
Theorem global_handlers_stay_in_sync handler m :
  handlers_in_sync m →
  handlers_in_sync (PluginManager_add_event_handler handler m)
  ∧ handlers_in_sync (PluginManager_remove_event_handler handler m)
  ∧ (handler ∉ PluginManager._event_handlers m →
     PluginManager_remove_event_handler handler
       (PluginManager_add_event_handler handler m) = m)
  ∧ (∀ plugin_name config fuel c out dl b ms',
       (∀ n s, _event_handlers (self (snd (ext_initialize (external n) s)))
               = _event_handlers (self s)) →
       load_plugin external plugin_name config fuel (mkMState m c out dl)
       = Some (Return b, ms') →
       handlers_in_sync (manager ms')).
Proof.
  intros Hsync. split; [|split; [|split]].
  - intros name p. cbn. rewrite lookup_fmap.
    destruct (PluginManager.plugins m !! name) as [q|] eqn:Hq; [|done].
    intros [= <-]. cbn. by rewrite (Hsync _ _ Hq).
  - intros name p. cbn. rewrite lookup_fmap.
    destruct (PluginManager.plugins m !! name) as [q|] eqn:Hq; [|done].
    intros [= <-]. cbn. unfold remove_event_handler.
    destruct (bool_decide (handler ∈ _event_handlers q)) eqn:Hmem;
      rewrite (Hsync _ _ Hq) in Hmem; rewrite Hmem; cbn;
      by rewrite (Hsync _ _ Hq).
  - intros Hno. destruct m as [dirs plugins classes handlers running].
    unfold PluginManager_remove_event_handler, PluginManager_add_event_handler. cbn in *.
    rewrite bool_decide_eq_true_2 by set_solver. f_equal.
    + apply map_eq. intros name. rewrite !lookup_fmap.
      destruct (plugins !! name) as [q|] eqn:Hq; [|done]. cbn. f_equal.
      apply remove_event_handler_after_add. by rewrite (Hsync _ _ Hq).
    + rewrite <- (app_nil_r handlers) at 2. by apply list_remove_first.
  - intros plugin_name config fuel c out dl b ms' Hinit Hrun.
    unfold load_plugin in Hrun. mgr_inv. cbn in *.
    case_bool_decide as Hin; mgr_inv; [done|].
    destruct (PluginManager.plugin_classes m !! plugin_name) as [cls|]; mgr_inv; try done.
    all: repeat match goal with
      | H : call_local _ _ _ _ = Some _ |- _ =>
          apply call_local_Some in H as (? & ? & ? & ? & ?); subst
      end.
    all: try match goal with
      | H : (let '(_, _) := ?x in _) _ _ = _ |- _ => destruct x as [[|] plugin]; mgr_inv
      end.
    all: try done.
    match goal with
    | H : initialize _ _ _ = Some (?o, ?ps) |- _ => rename H into Hini
    end.
    match goal with
    | H : Return _ = new_plugin _ _ _ |- _ => rename H into Hnew; symmetry in Hnew
    end.
    match goal with
    | H : Return _ = match ?o with _ => _ end |- _ =>
        destruct o as [a|]; [|done]; injection H as <- ->
    end.
    apply new_plugin_fresh in Hnew as [Hk Hh].
    match type of Hini with
    | initialize _ _ (mkPState (foldl ?f ?q ?l) _ _ _) = _ =>
        destruct (foldl_add_event_handler q l) as [Hk' Hh']
    end.
    match type of Hini with
    | initialize _ _ ?s0 = Some (_, ?ps) =>
        assert (_event_handlers (self ps) = PluginManager._event_handlers m) as Hps
    end.
    { destruct cls as [| |n].
      - match type of Hini with
        | initialize _ _ ?s0 = _ =>
            destruct (initialize_builtin_never_true fuel s0) as (o & Ho & Hne);
            [cbn [self]; by rewrite Hk', Hk|]
        end.
        rewrite Ho in Hini. by injection Hini as -> _.
      - match type of Hini with
        | initialize _ _ ?s0 = _ =>
            destruct (initialize_builtin_never_true fuel s0) as (o & Ho & Hne);
            [cbn [self]; by rewrite Hk', Hk|]
        end.
        rewrite Ho in Hini. by injection Hini as -> _.
      - unfold initialize, Py.bind, get in Hini. cbn [self] in Hini.
        rewrite Hk', Hk in Hini. unfold lift_ext in Hini. injection Hini as Hini.
        match type of Hini with
        | ext_initialize _ ?s0 = _ => pose proof (Hinit n s0) as Hi
        end.
        rewrite Hini in Hi. cbn [snd self] in Hi. by rewrite Hi, Hh', Hh. }
    intros name p. cbn. rewrite lookup_insert. case_decide; [|by apply Hsync].
    by intros [= <-].
Qed.

(** [initialize] and [stop] of an instance of a class of the package
    leave the instance exactly as it was, its status included:
    [initialize] never returns true, and on a complete configuration
    it raises [NameError] instead of returning; [stop] returns
    false. *)
Theorem builtin_initialize_and_stop_change_nothing fuel s :
  builtin (klass (self s)) = true →
  (∃ o, initialize external fuel s = Some (o, s) ∧ o ≠ Return true)
  ∧ stop external fuel s = Some (Return false, s)
  ∧ (∀ address user,
       attrs (self s) !! (if decide (klass (self s) = PhilipsHuePlugin)
                          then "bridge_ip" else "gateway_ip") = Some address →
       attrs (self s) !! (if decide (klass (self s) = PhilipsHuePlugin)
                          then "username" else "gateway_token") = Some user →
       truthy address = true → truthy user = true →
       initialize external fuel s = Some (Raise (NameError "PluginStatus"), s)).
Proof.
  intros Hb. split; [by apply initialize_builtin_never_true|]. split.
  - destruct (stop_runs fuel s) as (o & s' & Hrun & Hs).
    destruct (Hs Hb) as [-> ->]. exact Hrun.
  - intros address user Ha Hu Hta Htu.
    unfold initialize, Py.bind at 1, get. destruct (klass (self s)); [| |done].
    + rewrite decide_True in Ha, Hu by done.
      unfold philips_initialize, asyncio_sleep, getattr, try_except, Py.bind, get, ret.
      lazy beta iota. rewrite Ha. lazy beta iota. rewrite Hu, Hta, Htu.
      by destruct s as [[] ? ? ?].
    + rewrite decide_False in Ha, Hu by done.
      unfold xiaomi_initialize, asyncio_sleep, getattr, try_except, Py.bind, get, ret.
      lazy beta iota. rewrite Ha. lazy beta iota. rewrite Hu, Hta, Htu.
      by destruct s as [[] ? ? ?].
Qed.

End ManagerMore.

(** ** The statements at concrete inputs *)

Lemma failing_subscribers_quiet : quiet_handlers failing_subscribers.
Proof. repeat split; intros h ev p; unfold failing_subscribers; by case_decide. Defined.

Lemma failing_subscribers_stable l event : stable_on failing_subscribers l event.
Proof. intros h p _ Hl. unfold failing_subscribers. by case_decide. Defined.

Lemma sample_clock_monotone : monotone_clock sample_clock.
Proof. intros i j Hij. unfold sample_clock. lia. Defined.

Lemma sample_history_reach :
  reach failing_subscribers sample_clock sample_external sample_history hue_with_lamp_on.
Proof.
  apply (reach_step _ _ _ [op_add_device lamp] hue_with_lamp
           (op_update_device_state "lamp" sample_properties) 2 (Return tt));
    [|reflexivity|vm_compute; reflexivity].
  apply (reach_step _ _ _ [] (fresh_hue [0; 1]) (op_add_device lamp) 2 (Return tt));
    [|reflexivity|vm_compute; reflexivity].
  apply reach_init; reflexivity.
Defined.

(** C1: an [initialize] that fails on the default configuration (the
    user name is empty) returns false, but the status is still [LOADED],
    not [ERROR], and the registered subscribers have received no
    [error] event. *)
Lemma initialize_failure_leaves_status_LOADED :
  ∃ s', initialize sample_external 2 (fresh_hue [0; 1]) = Some (Return false, s')
    ∧ status (self s') = LOADED
    ∧ status (self s') ≠ ERROR
    ∧ _event_handlers (self s') = [0; 1]
    ∧ delivered s' = [].
Proof. exists (fresh_hue [0; 1]). repeat split; try reflexivity. discriminate. Qed.

Lemma contract_operations_contain_failures_witness :
  devices (self (fresh_hue [0; 1])) !! "lamp" = None
  ∧ execute_action failing_subscribers sample_clock sample_external "lamp" "turn_on" None 2
      (fresh_hue [0; 1]) = Some (Return false, fresh_hue [0; 1])
  ∧ attrs (self (fresh_hue [0; 1])) !! "username" = Some (VStr "")
  ∧ philips_initialize 2 (fresh_hue [0; 1]) = Some (Return false, fresh_hue [0; 1]).
Proof.
  destruct (contract_operations_contain_failures failing_subscribers sample_clock
              sample_external "lamp" "turn_on" None 2 (fresh_hue [0; 1]))
    as (_ & _ & Hunknown & _ & _ & _ & _ & _ & _ & Hinit & _).
  split; [reflexivity|]. split; [apply Hunknown; reflexivity|].
  split; [reflexivity|].
  apply (Hinit (VStr "192.168.1.100") (VStr "")); reflexivity.
Defined.

(** C2: a second [add_device] with the id of a registered device
    returns true and replaces the registered descriptor. *)
Lemma add_device_replaces_registered_device :
  devices (self hue_with_lamp) !! "lamp" = Some lamp
  ∧ lamp_renamed ≠ lamp
  ∧ ∃ s', add_device failing_subscribers sample_external lamp_renamed 2 hue_with_lamp
          = Some (Return true, s')
      ∧ devices (self s') !! "lamp" = Some lamp_renamed.
Proof.
  split; [reflexivity|]. split; [discriminate|].
  eexists. split; [vm_compute; reflexivity|]. reflexivity.
Qed.

Lemma add_device_always_stores_witness :
  quiet_handlers failing_subscribers
  ∧ length (_event_handlers (self hue_with_lamp)) ≤ 2
  ∧ ∃ s', add_device failing_subscribers sample_external lamp_renamed 2 hue_with_lamp
          = Some (Return true, s')
      ∧ devices (self s') =
          <[DeviceInfo.id lamp_renamed := lamp_renamed]> (devices (self hue_with_lamp))
      ∧ device_states (self s') = device_states (self hue_with_lamp).
Proof.
  split; [exact failing_subscribers_quiet|]. split; [cbn; lia|].
  destruct (add_device_always_stores failing_subscribers sample_external lamp_renamed 2
              hue_with_lamp failing_subscribers_quiet ltac:(cbn; lia))
    as (s' & Hrun & Hdev & Hst & _).
  exists s'. repeat split; assumption.
Defined.

(** C3: subscriber 0 unsubscribes itself while it runs; subscriber 1,
    registered when the emission started, is skipped by that emission. *)
Lemma emit_event_skips_subscriber_after_removal :
  _event_handlers (self (fresh_hue [0; 1; 2])) = [0; 1; 2]
  ∧ ∃ s', _emit_event self_removing_subscribers sample_external
            "device_removed" (device_removed_data "lamp") 3 (fresh_hue [0; 1; 2])
          = Some (Return tt, s')
      ∧ (delivered s').*1 = [0; 2]
      ∧ (delivered s').*1 ≠ [0; 1; 2].
Proof.
  split; [reflexivity|]. eexists. split; [vm_compute; reflexivity|].
  split; [reflexivity|discriminate].
Qed.

Lemma emit_event_in_registration_order_witness :
  length (_event_handlers (self (fresh_hue [0; 1; 2]))) ≤ 3
  ∧ ∃ s', _emit_event failing_subscribers sample_external
            "device_removed" (device_removed_data "lamp") 3 (fresh_hue [0; 1; 2])
          = Some (Return tt, s')
      ∧ (delivered s').*1 = [0; 1; 2].
Proof.
  split; [cbn; lia|].
  destruct (emit_event_in_registration_order failing_subscribers sample_external
              "device_removed" (device_removed_data "lamp") 3 (fresh_hue [0; 1; 2])
              (failing_subscribers_stable _ _) ltac:(cbn; lia))
    as (s' & Hrun & Hdel & _).
  exists s'. split; [exact Hrun|]. rewrite Hdel. reflexivity.
Defined.

(** C4: subscriber 0 of two raises; subscriber 1 still receives the
    event and the emission returns, but nothing has been printed. *)
Lemma emit_event_discards_subscriber_failure_witness :
  _event_handlers (self (fresh_hue [0; 1])) !! 0 = Some 0
  ∧ (∀ event p, fst (failing_subscribers 0 event p) = Raise (Exn "RuntimeError" "boom"))
  ∧ ∃ s', _emit_event failing_subscribers sample_external
            "device_removed" (device_removed_data "lamp") 2 (fresh_hue [0; 1])
          = Some (Return tt, s')
      ∧ (delivered s').*1 = [0; 1]
      ∧ stdout s' = [].
Proof.
  split; [reflexivity|]. split; [reflexivity|].
  destruct (emit_event_discards_subscriber_failure failing_subscribers sample_external
              "device_removed" (device_removed_data "lamp") 2 (fresh_hue [0; 1]) 0 0
              (Exn "RuntimeError" "boom")
              (failing_subscribers_stable _ _) ltac:(cbn; lia) eq_refl
              (fun p => eq_refl))
    as (s' & Hrun & Hdel & Hout).
  exists s'. split; [exact Hrun|]. rewrite Hdel, Hout. split; reflexivity.
Defined.

Lemma update_device_state_replaces_witness :
  devices (self (fresh_hue [0; 1])) !! "lamp" = None
  ∧ update_device_state failing_subscribers sample_clock sample_external
      "lamp" sample_properties 2 (fresh_hue [0; 1])
    = Some (Return false, fresh_hue [0; 1])
  ∧ is_Some (devices (self hue_with_lamp) !! "lamp")
  ∧ ∃ s', update_device_state failing_subscribers sample_clock sample_external
            "lamp" sample_properties 2 hue_with_lamp
          = Some (Return true, s')
      ∧ DeviceState.properties <$> device_states (self s') !! "lamp"
        = Some sample_properties.
Proof.
  destruct (update_device_state_replaces failing_subscribers sample_clock sample_external
              "lamp" sample_properties 2 (fresh_hue [0; 1])) as [Hunknown _].
  destruct (update_device_state_replaces failing_subscribers sample_clock sample_external
              "lamp" sample_properties 2 hue_with_lamp) as [_ Hknown].
  split; [reflexivity|]. split; [apply Hunknown; reflexivity|].
  assert (Hin : is_Some (devices (self hue_with_lamp) !! "lamp")) by (eexists; reflexivity).
  split; [exact Hin|].
  destruct (Hknown failing_subscribers_quiet ltac:(cbn; lia) Hin) as (s' & Hrun & Hst & _).
  exists s'. split; [exact Hrun|]. rewrite Hst, lookup_insert_eq. reflexivity.
Defined.

Lemma device_state_lifecycle_witness :
  reach failing_subscribers sample_clock sample_external sample_history hue_with_lamp_on
  ∧ (∃ s1 st,
       update_device_state failing_subscribers sample_clock sample_external
         "lamp" ∅ 2 hue_with_lamp_on = Some (Return true, s1)
       ∧ get_device_state "lamp" 2 s1 = Some (Return (Some st), s1)
       ∧ DeviceState.properties st = ∅)
  ∧ (∃ r s1,
       remove_device failing_subscribers sample_external "lamp" 2 hue_with_lamp_on
       = Some (Return r, s1)
       ∧ get_device_state "lamp" 2 s1 = Some (Return None, s1)).
Proof.
  destruct (device_state_lifecycle failing_subscribers sample_clock sample_external
              (proj1 failing_subscribers_quiet)
              (proj1 (proj2 failing_subscribers_quiet))
              sample_history hue_with_lamp_on "lamp"
              (proj2 (proj2 failing_subscribers_quiet))
              sample_clock_monotone sample_history_reach)
    as (_ & Hupdate & Hremove).
  split; [exact sample_history_reach|]. split.
  - destruct (Hupdate 2 ∅ ltac:(cbn; lia) ltac:(eexists; reflexivity))
      as (s1 & st & H1 & H2 & H3 & _).
    exists s1, st. repeat split; assumption.
  - exact (Hremove 2 ltac:(cbn; lia)).
Defined.

Lemma discover_all_devices_isolates_failures_witness :
  ∃ result ms',
    discover_all_devices failing_subscribers sample_clock sample_external 0 two_instances
    = Some (Return result, ms')
    ∧ dom result = dom (PluginManager.plugins (manager two_instances)).
Proof.
  destruct (discover_all_devices_isolates_failures failing_subscribers sample_clock
              sample_external 0 two_instances) as (result & ms' & Hrun & Hdom & _).
  - intros name plugin Hin c out dl.
    unfold two_instances in Hin. cbn [manager PluginManager.plugins] in Hin.
    apply lookup_insert_Some in Hin as [[_ <-]|[_ Hin]].
    + eexists. reflexivity.
    + apply lookup_singleton_Some in Hin as [_ <-]. eexists. reflexivity.
  - exists result, ms'. split; assumption.
Defined.

(** C9: with the default configuration the user name is empty and
    [initialize] fails: both calls of [load_plugin] return false, and
    nothing is stored. *)
Lemma load_plugin_twice_returns_false :
  ∃ ms1 ms2,
    load_plugin sample_external "philips_hue" None 0 new_manager = Some (Return false, ms1)
    ∧ load_plugin sample_external "philips_hue" None 0 ms1 = Some (Return false, ms2)
    ∧ PluginManager.plugins (manager ms2) = ∅.
Proof.
  eexists _, _. split; [vm_compute; reflexivity|]. split; [vm_compute; reflexivity|].
  reflexivity.
Qed.

Lemma load_plugin_again_is_a_no_op_witness :
  load_plugin sample_external "virtual" None 0 sample_manager
  = Some (Return true, sample_manager_loaded)
  ∧ is_Some (PluginManager.plugins (manager sample_manager_loaded) !! "virtual")
  ∧ load_plugin sample_external "virtual" None 0 sample_manager_loaded
    = Some (Return true,
            mkMState (manager sample_manager_loaded) (m_clock_reads sample_manager_loaded)
              (m_stdout sample_manager_loaded ++ ["Plugin virtual already loaded"])
              (m_delivered sample_manager_loaded)).
Proof.
  assert (Hfirst : load_plugin sample_external "virtual" None 0 sample_manager
                   = Some (Return true, sample_manager_loaded)) by (vm_compute; reflexivity).
  split; [exact Hfirst|].
  exact (proj1 (load_plugin_again_is_a_no_op sample_external "virtual" None None 0 0
                  sample_manager sample_manager_loaded) Hfirst).
Defined.

Lemma stored_states_are_online_witness :
  reach failing_subscribers sample_clock sample_external sample_history hue_with_lamp_on
  ∧ (∀ id st, device_states (self hue_with_lamp_on) !! id = Some st →
       DeviceState.online st = true)
  ∧ ∃ h, health_check 2 hue_with_lamp_on = Some (Return h, hue_with_lamp_on)
      ∧ online_devices h = 1.
Proof.
  destruct (stored_states_are_online failing_subscribers sample_clock sample_external
              (proj1 failing_subscribers_quiet)
              (proj1 (proj2 failing_subscribers_quiet))
              sample_history hue_with_lamp_on sample_history_reach)
    as (Honline & Hhealth).
  split; [exact sample_history_reach|]. split; [exact Honline|].
  destruct (Hhealth 2) as (h & Hrun & Hcount).
  exists h. split; [exact Hrun|]. rewrite Hcount. reflexivity.
Defined.

(** ** The further statements at concrete inputs *)

Lemma remove_device_drops_descriptor_and_state_witness :
  devices (self (fresh_hue [0; 1])) !! "lamp" = None
  ∧ remove_device failing_subscribers sample_external "lamp" 2 (fresh_hue [0; 1])
    = Some (Return false, fresh_hue [0; 1])
  ∧ is_Some (devices (self hue_with_lamp_on) !! "lamp")
  ∧ ∃ s', remove_device failing_subscribers sample_external "lamp" 2 hue_with_lamp_on
          = Some (Return true, s')
      ∧ devices (self s') !! "lamp" = None
      ∧ device_states (self s') !! "lamp" = None.
Proof.
  destruct (remove_device_drops_descriptor_and_state failing_subscribers sample_external
              "lamp" 2 (fresh_hue [0; 1])) as [Hunknown _].
  destruct (remove_device_drops_descriptor_and_state failing_subscribers sample_external
              "lamp" 2 hue_with_lamp_on) as [_ Hknown].
  split; [reflexivity|]. split; [apply Hunknown; reflexivity|].
  assert (Hin : is_Some (devices (self hue_with_lamp_on) !! "lamp")) by (eexists; reflexivity).
  split; [exact Hin|].
  destruct (Hknown failing_subscribers_quiet ltac:(cbn; lia) Hin) as (s' & Hrun & Hd & Hs & _).
  exists s'. split; [exact Hrun|]. rewrite Hd, Hs. split; apply lookup_delete_eq.
Defined.

Lemma recorded_states_belong_to_devices_witness :
  reach failing_subscribers sample_clock sample_external sample_history hue_with_lamp_on
  ∧ ∃ h, health_check 2 hue_with_lamp_on = Some (Return h, hue_with_lamp_on)
      ∧ online_devices h ≤ devices_count h.
Proof.
  destruct (recorded_states_belong_to_devices failing_subscribers sample_clock sample_external
              sample_history hue_with_lamp_on
              (proj1 failing_subscribers_quiet)
              (proj1 (proj2 failing_subscribers_quiet))
              sample_history_reach) as (_ & Hhealth).
  split; [exact sample_history_reach|].
  destruct (Hhealth 2) as (h & Hrun & _ & Hle). exists h. split; assumption.
Defined.

Lemma emit_event_never_ends_when_subscribers_keep_subscribing_witness :
  _event_handlers (self (fresh_hue [0])) ≠ []
  ∧ ∀ fuel, _emit_event growing_subscribers sample_external "device_removed"
              (device_removed_data "lamp") fuel (fresh_hue [0]) = None.
Proof.
  split; [discriminate|].
  apply (emit_event_never_ends_when_subscribers_keep_subscribing growing_subscribers
           sample_external "device_removed" (device_removed_data "lamp") (fresh_hue [0])).
  - intros h ev p. unfold growing_subscribers. cbn. rewrite length_app. cbn. lia.
  - discriminate.
Defined.

Lemma remove_event_handler_drops_first_subscription_witness :
  _event_handlers (self (fresh_hue [0; 1])) = [0] ++ 1 :: []
  ∧ _event_handlers (remove_event_handler 1 (self (fresh_hue [0; 1]))) = [0]
  ∧ remove_event_handler 7 (add_event_handler 7 (self (fresh_hue [0; 1])))
    = self (fresh_hue [0; 1]).
Proof.
  destruct (remove_event_handler_drops_first_subscription 1 (self (fresh_hue [0; 1])))
    as (_ & Hfirst & _).
  destruct (remove_event_handler_drops_first_subscription 7 (self (fresh_hue [0; 1])))
    as (_ & _ & Hround).
  split; [reflexivity|]. split.
  - destruct (Hfirst [0] [] eq_refl) as [H _]; [|exact H].
    intros Hin. apply list_elem_of_singleton in Hin. discriminate.
  - apply Hround. cbn. intros Hin.
    apply elem_of_cons in Hin as [Hin|Hin]; [discriminate|].
    apply list_elem_of_singleton in Hin. discriminate.
Defined.

Lemma philips_actions_replace_state_witness :
  klass (self hue_with_lamp_on) = PhilipsHuePlugin
  ∧ ∃ s', execute_action failing_subscribers sample_clock sample_external
            "lamp" "turn_off" None 2 hue_with_lamp_on = Some (Return true, s')
      ∧ DeviceState.properties <$> device_states (self s') !! "lamp"
        = Some (<["brightness" := VInt 0]> {["power" := VBool false]}).
Proof.
  split; [reflexivity|].
  destruct (philips_actions_replace_state failing_subscribers sample_clock sample_external
              failing_subscribers_quiet "lamp" None 2 hue_with_lamp_on eq_refl
              ltac:(cbn; lia) ltac:(eexists; reflexivity))
    as (_ & (s' & Hrun & _ & Hst) & _).
  exists s'. split; [exact Hrun|]. rewrite Hst, lookup_insert_eq. reflexivity.
Defined.

Lemma philips_set_brightness_clamps_witness :
  ∃ s', execute_action failing_subscribers sample_clock sample_external
          "lamp" "set_brightness" (Some {["brightness" := VInt 250]}) 2 hue_with_lamp_on
        = Some (Return true, s')
    ∧ DeviceState.properties <$> device_states (self s') !! "lamp"
      = Some {["brightness" := VInt 100]}.
Proof.
  destruct (philips_set_brightness_clamps failing_subscribers sample_clock sample_external
              failing_subscribers_quiet "lamp" (Some {["brightness" := VInt 250]}) 2
              hue_with_lamp_on eq_refl ltac:(cbn; lia) ltac:(eexists; reflexivity))
    as (Hint & _).
  destruct (Hint 250%Z eq_refl) as (s' & Hrun & _ & Hst).
  exists s'. split; [exact Hrun|]. rewrite Hst, lookup_insert_eq. reflexivity.
Defined.

Lemma philips_unknown_action_is_refused_witness :
  ∃ s', execute_action failing_subscribers sample_clock sample_external
          "lamp" "dance" None 2 hue_with_lamp_on = Some (Return false, s')
    ∧ device_states (self s') = device_states (self hue_with_lamp_on).
Proof.
  destruct (philips_unknown_action_is_refused failing_subscribers sample_clock
              sample_external failing_subscribers_quiet "lamp" "dance" None 2
              hue_with_lamp_on eq_refl ltac:(cbn; lia) ltac:(eexists; reflexivity))
    as (s' & Hrun & _ & Hst & _).
  - intros Hin. repeat (apply elem_of_cons in Hin as [Hin|Hin]; [discriminate|]).
    inversion Hin.
  - exists s'. split; assumption.
Defined.

Lemma xiaomi_actions_witness :
  klass (self xiaomi_with_lamp) = XiaomiSensorsPlugin
  ∧ ∃ s', execute_action failing_subscribers sample_clock sample_external
            "lamp" "reset_battery" None 2 xiaomi_with_lamp = Some (Return true, s')
      ∧ DeviceState.properties <$> device_states (self s') !! "lamp"
        = Some {["battery" := VInt 100]}.
Proof.
  split; [reflexivity|].
  destruct (xiaomi_actions failing_subscribers sample_clock sample_external
              failing_subscribers_quiet "lamp" "reset_battery" None 2 xiaomi_with_lamp
              eq_refl ltac:(cbn; lia) ltac:(eexists; reflexivity))
    as ((s' & Hrun & _ & Hst) & _).
  exists s'. split; [exact Hrun|]. rewrite Hst, lookup_insert_eq. reflexivity.
Defined.

Lemma philips_discover_devices_resets_lights_witness :
  attrs (self hue_with_lamp_on) !! "bridge_ip" = Some (VStr "192.168.1.100")
  ∧ ∃ found s',
      philips_discover_devices failing_subscribers sample_clock sample_external 2
        hue_with_lamp_on = Some (Return found, s')
      ∧ length found = 2
      ∧ is_Some (device_states (self s') !! "hue_light_001")
      ∧ is_Some (device_states (self s') !! "hue_light_002").
Proof.
  split; [reflexivity|].
  destruct (philips_discover_devices_resets_lights failing_subscribers sample_clock
              sample_external failing_subscribers_quiet (VStr "192.168.1.100") 2
              hue_with_lamp_on eq_refl ltac:(cbn; lia))
    as (first & second & s' & _ & Hrun & _ & Hst).
  exists [first; second], s'. split; [exact Hrun|]. split; [reflexivity|].
  rewrite Hst. split.
  - rewrite lookup_insert_ne by discriminate. rewrite lookup_insert_eq. eexists; reflexivity.
  - rewrite lookup_insert_eq. eexists; reflexivity.
Defined.

Lemma xiaomi_discover_devices_seeds_by_capability_witness :
  attrs (self (fresh_xiaomi [0; 1])) !! "gateway_ip" = Some (VStr "192.168.1.50")
  ∧ ∃ found s',
      xiaomi_discover_devices failing_subscribers sample_clock sample_external 2
        (fresh_xiaomi [0; 1]) = Some (Return found, s')
      ∧ length found = 3
      ∧ is_Some (device_states (self s') !! "xiaomi_motion_001").
Proof.
  split; [reflexivity|].
  destruct (xiaomi_discover_devices_seeds_by_capability failing_subscribers sample_clock
              sample_external failing_subscribers_quiet (VStr "192.168.1.50") 2
              (fresh_xiaomi [0; 1]) eq_refl ltac:(cbn; lia))
    as (temp & door & motion & s' & _ & Hrun & _ & Hst).
  exists [temp; door; motion], s'. split; [exact Hrun|]. split; [reflexivity|].
  rewrite Hst, lookup_insert_eq. eexists; reflexivity.
Defined.

Lemma load_plugin_never_loads_a_builtin_witness :
  PluginManager.plugin_classes (manager new_manager) !! "philips_hue" = Some PhilipsHuePlugin
  ∧ ∃ ms', load_plugin sample_external "philips_hue"
             (Some (<["username" := VStr "u"]> {["bridge_ip" := VStr "10.0.0.5"]}))
             0 new_manager = Some (Return false, ms')
      ∧ manager ms' = manager new_manager.
Proof.
  split; [reflexivity|].
  exact (load_plugin_never_loads_a_builtin sample_external "philips_hue" PhilipsHuePlugin
           (Some (<["username" := VStr "u"]> {["bridge_ip" := VStr "10.0.0.5"]}))
           0 new_manager eq_refl eq_refl eq_refl).
Defined.

Lemma load_configured_plugins_loads_no_builtin_witness :
  ∃ ms', _load_configured_plugins sample_external 0 new_manager = Some (Return tt, ms')
    ∧ manager ms' = manager new_manager.
Proof.
  apply (load_configured_plugins_loads_no_builtin sample_external 0 new_manager).
  intros name cls Hcls. unfold new_manager, PluginManager_init in Hcls.
  cbn [manager PluginManager.plugin_classes] in Hcls.
  apply lookup_insert_Some in Hcls as [[_ <-]|[_ Hcls]]; [reflexivity|].
  apply lookup_singleton_Some in Hcls as [_ <-]. reflexivity.
Defined.


Lemma global_handlers_stay_in_sync_witness :
  handlers_in_sync (manager sample_manager_loaded)
  ∧ handlers_in_sync (PluginManager_add_event_handler 3 (manager sample_manager_loaded))
  ∧ PluginManager_remove_event_handler 3
      (PluginManager_add_event_handler 3 (manager sample_manager_loaded))
    = manager sample_manager_loaded.
Proof.
  assert (Hsync : handlers_in_sync (manager sample_manager_loaded)).
  { intros name p Hp. unfold sample_manager_loaded in Hp.
    cbn [manager PluginManager.plugins] in Hp.
    destruct (decide (name = "virtual")) as [->|Hne].
    - vm_compute in Hp. injection Hp as <-. reflexivity.
    - exfalso. revert Hp. change (PluginManager.plugins (manager sample_manager_loaded)
                                    !! name = Some p → False).
      intros Hp.
      assert (dom (PluginManager.plugins (manager sample_manager_loaded))
              = {["virtual"]}) as Hdom by (vm_compute; reflexivity).
      assert (name ∈ dom (PluginManager.plugins (manager sample_manager_loaded)))
        as Hin by (apply elem_of_dom; eexists; exact Hp).
      rewrite Hdom in Hin. apply elem_of_singleton in Hin. contradiction. }
  destruct (global_handlers_stay_in_sync failing_subscribers sample_clock sample_external
              3 (manager sample_manager_loaded) Hsync) as (Hadd & _ & Hround & _).
  split; [exact Hsync|]. split; [exact Hadd|].
  apply Hround. cbn. intros Hin. inversion Hin.
Defined.

Lemma builtin_initialize_and_stop_change_nothing_witness :
  builtin (klass (self (fresh_hue [0; 1]))) = true
  ∧ stop sample_external 2 (fresh_hue [0; 1]) = Some (Return false, fresh_hue [0; 1])
  ∧ status (self (fresh_hue [0; 1])) = LOADED.
Proof.
  split; [reflexivity|].
  destruct (builtin_initialize_and_stop_change_nothing sample_external 2 (fresh_hue [0; 1])
              eq_refl) as (_ & Hstop & _).
  split; [exact Hstop|reflexivity].
Defined.

Lemma start_and_stop_all_plugins_visit_every_instance_witness :
  PluginManager.plugins (manager mixed_manager) !! "hue" = Some (PhilipsHuePlugin_init None)
  ∧ ∃ result ms',
      start_all_plugins sample_external 0 mixed_manager = Some (Return result, ms')
      ∧ dom result = dom (PluginManager.plugins (manager mixed_manager))
      ∧ result !! "hue" = Some false.
Proof.
  split; [reflexivity|].
  destruct (start_and_stop_all_plugins_visit_every_instance sample_external 0 mixed_manager)
    as ((result & ms' & Hrun & Hdom & Hbuiltin) & _).
  exists result, ms'. split; [exact Hrun|]. split; [exact Hdom|].
  exact (Hbuiltin "hue" (PhilipsHuePlugin_init None) eq_refl eq_refl).
Defined.
